(** * The resilience layer of elastic-rag: circuit breaker and health probes

    A shallow embedding of [src/resilience/circuit_breaker.py] and
    [src/resilience/health_probes.py], with the part of
    [src/config/settings.py] that validates their configuration.

    Python code that mutates [self], reads the clock and raises exceptions is
    written in a small state-and-exception monad; the wrapped operation and
    the external services are inputs of the model, and spy counters record
    how often they are invoked. *)

From Stdlib Require Import ZArith QArith List Ascii String Bool Lia DecimalString.
Import ListNotations.
Open Scope string_scope.
Open Scope Z_scope.

(* ===================================================================== *)
(** ** Python values, exceptions and the effect monad                     *)
(* ===================================================================== *)

Module Py.

(** An instance of a subclass of [Exception]: its class name and [str(e)].
    Both [except Exception] handlers of the sources catch exactly these;
    signals that derive from [BaseException] only ([KeyboardInterrupt],
    [SystemExit], task cancellation) are not raised by the modelled
    collaborators and are outside the model. *)
Record PyExc : Type := mkExc { exc_class : string; exc_msg : string }.

Definition isinstance (e : PyExc) (classes : list string) : bool :=
  existsb (String.eqb (exc_class e)) classes.

Definition str (e : PyExc) : string := exc_msg e.

Definition RuntimeError (msg : string) : PyExc := mkExc "RuntimeError" msg.
Definition ValueError (msg : string) : PyExc := mkExc "ValueError" msg.
Definition KeyError (key : string) : PyExc := mkExc "KeyError" key.

(** The values stored in the dictionaries the public methods return.
    A [dict] literal keeps its insertion order. *)
#[warnings="-register-all"]
Inductive PyVal : Type :=
| VNone
| VBool (b : bool)
| VInt (z : Z)
| VStr (s : string)
| VDict (d : list (string * PyVal)).

Definition PyDict : Type := list (string * PyVal).

Fixpoint dict_get (k : string) (d : PyDict) : option PyVal :=
  match d with
  | [] => None
  | (k', v) :: d' => if String.eqb k k' then Some v else dict_get k d'
  end.

(** [d[k] = v]: an existing key keeps its place, a new one goes last. *)
Fixpoint dict_set (k : string) (v : PyVal) (d : PyDict) : PyDict :=
  match d with
  | [] => [(k, v)]
  | (k', v') :: d' =>
      if String.eqb k k' then (k', v) :: d' else (k', v') :: dict_set k v d'
  end.

(** [d[k1][k2]] *)
Definition dict_get2 (k1 k2 : string) (d : PyDict) : option PyVal :=
  match dict_get k1 d with
  | Some (VDict d') => dict_get k2 d'
  | _ => None
  end.

(** [f"{n}"] for an [int]. *)
Definition str_of_int (z : Z) : string := NilZero.string_of_int (Z.to_int z).

(** The result of running a statement: a value, or a raised exception. *)
Inductive Res (A : Type) : Type :=
| Ok (a : A)
| Raised (e : PyExc).
Arguments Ok {A} a.
Arguments Raised {A} e.

(** Computations over a world [W]. *)
Definition M (W A : Type) : Type := W -> Res A * W.

Definition ret {W A} (a : A) : M W A := fun w => (Ok a, w).

Definition bind {W A B} (c : M W A) (k : A -> M W B) : M W B :=
  fun w =>
    match c w with
    | (Ok a, w') => k a w'
    | (Raised e, w') => (Raised e, w')
    end.

Definition raise {W A} (e : PyExc) : M W A := fun w => (Raised e, w).

(** [try: body  except Exception as e: handler(e)] *)
Definition try_except {W A} (body : M W A) (handler : PyExc -> M W A) : M W A :=
  fun w =>
    match body w with
    | (Ok a, w') => (Ok a, w')
    | (Raised e, w') => handler e w'
    end.

Definition gets {W A} (f : W -> A) : M W A := fun w => (Ok (f w), w).

Definition modify {W} (f : W -> W) : M W unit := fun w => (Ok tt, f w).

Definition when {W} (b : bool) (c : M W unit) : M W unit :=
  if b then c else ret tt.

(** Microseconds per second: [datetime] and [timedelta] count whole
    microseconds, and instants and durations are given in that unit. *)
Definition us_per_s : Z := 1000000.

(** [td.total_seconds() >= seconds] for a duration [td] and an [int]
    number of seconds.  [total_seconds()] is the quotient of the
    microsecond count by [10**6]; the comparison is made on the exact
    quotient (for the durations and time-outs of seconds to days that
    occur, the rounding of the quotient to a float does not cross an
    integer). *)
Definition total_seconds_ge (td seconds : Z) : bool := seconds * us_per_s <=? td.

End Py.

Import Py.

Declare Scope py_scope.
Delimit Scope py_scope with py.
Notation "x <- c ;; k" := (bind c (fun x => k))
  (at level 61, c at next level, right associativity) : py_scope.
Notation "c ;; k" := (bind c (fun _ => k))
  (at level 61, right associativity) : py_scope.
Open Scope py_scope.

(* ===================================================================== *)
(** ** src/config/settings.py (the validated settings the layer reads)    *)
(* ===================================================================== *)

Module settings.

(** [validate_positive] of [CircuitBreakerSettings] and [HealthSettings]. *)
Definition validate_positive (msg : string) (v : Z) : Res Z :=
  if v <=? 0 then Raised (ValueError msg) else Ok v.

Record CircuitBreakerSettings : Type := mkCBSettings {
  failure_threshold : Z;
  timeout_seconds : Z;
  half_open_max_calls : Z
}.

(** The field defaults: 5 failures, 60 seconds, 3 trial calls. *)
Definition default : CircuitBreakerSettings := mkCBSettings 5 60 3.

Definition cb_msg : string := "Circuit breaker values must be positive integers".

(** Construction of a [CircuitBreakerSettings]: every field goes through
    the validator. *)
Definition make (ft ts hm : Z) : Res CircuitBreakerSettings :=
  match validate_positive cb_msg ft,
        validate_positive cb_msg ts,
        validate_positive cb_msg hm with
  | Ok a, Ok b, Ok c => Ok (mkCBSettings a b c)
  | Raised e, _, _ => Raised e
  | _, Raised e, _ => Raised e
  | _, _, Raised e => Raised e
  end.

(** The settings object was accepted by the validators. *)
Definition validated (s : CircuitBreakerSettings) : Prop :=
  make (failure_threshold s) (timeout_seconds s) (half_open_max_calls s) = Ok s.

End settings.

(* ===================================================================== *)
(** ** src/resilience/circuit_breaker.py                                  *)
(* ===================================================================== *)

Module circuit_breaker.

Inductive CircuitState : Type := CLOSED | OPEN | HALF_OPEN.

(** [CircuitState.X.value] *)
Definition value (s : CircuitState) : string :=
  match s with
  | CLOSED => "closed"
  | OPEN => "open"
  | HALF_OPEN => "half_open"
  end.

Definition state_eqb (a b : CircuitState) : bool :=
  match a, b with
  | CLOSED, CLOSED | OPEN, OPEN | HALF_OPEN, HALF_OPEN => true
  | _, _ => false
  end.

Definition CircuitBreakerError (msg : string) : PyExc :=
  mkExc "CircuitBreakerError" msg.

(** The attributes of a [CircuitBreaker] instance (the lock apart: the
    model runs one call at a time). *)
Record CircuitBreaker : Type := mkCB {
  failure_threshold : Z;
  timeout : Z;
  half_open_max_calls : Z;
  state : CircuitState;
  failure_count : Z;
  last_failure_time : option Z;
  half_open_calls : Z
}.

Definition set_state (v : CircuitState) (cb : CircuitBreaker) : CircuitBreaker :=
  mkCB (failure_threshold cb) (timeout cb) (half_open_max_calls cb)
       v (failure_count cb) (last_failure_time cb) (half_open_calls cb).

Definition set_failure_count (v : Z) (cb : CircuitBreaker) : CircuitBreaker :=
  mkCB (failure_threshold cb) (timeout cb) (half_open_max_calls cb)
       (state cb) v (last_failure_time cb) (half_open_calls cb).

Definition set_last_failure_time (v : option Z) (cb : CircuitBreaker) : CircuitBreaker :=
  mkCB (failure_threshold cb) (timeout cb) (half_open_max_calls cb)
       (state cb) (failure_count cb) v (half_open_calls cb).

Definition set_half_open_calls (v : Z) (cb : CircuitBreaker) : CircuitBreaker :=
  mkCB (failure_threshold cb) (timeout cb) (half_open_max_calls cb)
       (state cb) (failure_count cb) (last_failure_time cb) v.

(** [CircuitBreaker.__init__], given the result of [get_settings()]. *)
Definition __init__ (s : settings.CircuitBreakerSettings) : CircuitBreaker :=
  mkCB (settings.failure_threshold s) (settings.timeout_seconds s)
       (settings.half_open_max_calls s)
       CLOSED 0 None 0.

(** What a method of the breaker can touch: the instance, the system
    clock, and a count of how often the wrapped operation was run.
    [clock n] is the instant (in microseconds) returned by the [n]-th
    evaluation of [datetime.now()]; [ticks] is the number of evaluations
    made so far. *)
Record World : Type := mkWorld {
  self : CircuitBreaker;
  clock : nat -> Z;
  ticks : nat;
  invocations : nat
}.

Definition attr {A} (f : CircuitBreaker -> A) : M World A :=
  gets (fun w => f (self w)).

Definition setattr (f : CircuitBreaker -> CircuitBreaker) : M World unit :=
  modify (fun w => mkWorld (f (self w)) (clock w) (ticks w) (invocations w)).

(** [datetime.now()] *)
Definition datetime_now : M World Z :=
  fun w => (Ok (clock w (ticks w)),
            mkWorld (self w) (clock w) (S (ticks w)) (invocations w)).

Section Breaker.

(** The type of the values the wrapped operation returns. *)
Variable V : Type.

(** [f"{x:.1f}"] for a number of seconds [x], given in microseconds. *)
Variable format_1f : Z -> string.

(** [d.isoformat()] for an instant [d]. *)
Variable isoformat : Z -> string.

(** What running the wrapped operation [func] on its arguments does:
    it returns a value or raises. *)
Inductive Outcome : Type :=
| Returns (v : V)
| Raises (e : PyExc).

(** The invocation of [func] on the arguments given to [call]. *)
Definition invoke (func : Outcome) : M World V :=
  fun w =>
    (match func with Returns v => Ok v | Raises e => Raised e end,
     mkWorld (self w) (clock w) (ticks w) (S (invocations w))).

Definition _should_attempt_reset : M World bool :=
  lft <- attr last_failure_time ;;
  match lft with
  | None => ret true
  | Some t =>
      now <- datetime_now ;;
      let elapsed := now - t in
      tmo <- attr timeout ;;
      ret (total_seconds_ge elapsed tmo)
  end.

Definition open_message (remaining : Z) : string :=
  "Circuit breaker is OPEN. Service unavailable. "
  ++ "Retry in " ++ format_1f remaining ++ " seconds.".

Definition half_open_message (max_calls : Z) : string :=
  "Circuit breaker HALF_OPEN max calls (" ++ str_of_int max_calls ++ ") exceeded. "
  ++ "Please wait for recovery.".

(** The first [with self._lock:] block of [call]: the admission check. *)
Definition admission : M World unit :=
  st <- attr state ;;
  (if state_eqb st OPEN then
     reset <- _should_attempt_reset ;;
     if reset then
       setattr (set_state HALF_OPEN) ;;
       setattr (set_half_open_calls 0)
     else
       lft <- attr last_failure_time ;;
       elapsed <- match lft with
                  | Some t => now <- datetime_now ;; ret (now - t)
                  | None => ret 0
                  end ;;
       tmo <- attr timeout ;;
       let remaining := Z.max 0 (tmo * us_per_s - elapsed) in
       raise (CircuitBreakerError (open_message remaining))
   else ret tt) ;;
  st <- attr state ;;
  calls <- attr half_open_calls ;;
  max_calls <- attr half_open_max_calls ;;
  if state_eqb st HALF_OPEN && (max_calls <=? calls) then
    raise (CircuitBreakerError (half_open_message max_calls))
  else ret tt.

Definition _on_success : M World unit :=
  st <- attr state ;;
  match st with
  | HALF_OPEN =>
      calls <- attr half_open_calls ;;
      setattr (set_half_open_calls (calls + 1)) ;;
      calls <- attr half_open_calls ;;
      max_calls <- attr half_open_max_calls ;;
      when (max_calls <=? calls)
        (setattr (set_state CLOSED) ;;
         setattr (set_failure_count 0) ;;
         setattr (set_half_open_calls 0) ;;
         setattr (set_last_failure_time None))
  | CLOSED =>
      count <- attr failure_count ;;
      when (0 <? count) (setattr (set_failure_count 0))
  | OPEN => ret tt
  end.

Definition _on_failure (exception : PyExc) : M World unit :=
  count <- attr failure_count ;;
  setattr (set_failure_count (count + 1)) ;;
  now <- datetime_now ;;
  setattr (set_last_failure_time (Some now)) ;;
  st <- attr state ;;
  match st with
  | HALF_OPEN =>
      setattr (set_state OPEN) ;;
      setattr (set_half_open_calls 0)
  | CLOSED =>
      count <- attr failure_count ;;
      threshold <- attr failure_threshold ;;
      when (threshold <=? count) (setattr (set_state OPEN))
  | OPEN => ret tt
  end.

Definition call (func : Outcome) : M World V :=
  admission ;;
  try_except
    (result <- invoke func ;;
     _on_success ;;
     ret result)
    (fun e =>
       _on_failure e ;;
       raise e).

Definition is_open : M World bool :=
  st <- attr state ;; ret (state_eqb st OPEN).

Definition is_closed : M World bool :=
  st <- attr state ;; ret (state_eqb st CLOSED).

Definition is_half_open : M World bool :=
  st <- attr state ;; ret (state_eqb st HALF_OPEN).

Definition get_state : M World PyDict :=
  st <- attr state ;;
  count <- attr failure_count ;;
  lft <- attr last_failure_time ;;
  calls <- attr half_open_calls ;;
  ret [ ("state", VStr (value st));
        ("failure_count", VInt count);
        ("last_failure", match lft with Some t => VStr (isoformat t) | None => VNone end);
        ("half_open_calls", VInt calls) ].

Definition reset : M World unit :=
  setattr (set_state CLOSED) ;;
  setattr (set_failure_count 0) ;;
  setattr (set_last_failure_time None) ;;
  setattr (set_half_open_calls 0).

(** *** Sequential use of one breaker *)

(** One use of the public interface. *)
Inductive Op : Type :=
| Call (func : Outcome)
| Reset
| GetState
| IsOpen
| IsClosed
| IsHalfOpen.

(** The world after one operation; what it returned or raised is
    dropped, as a caller does that wraps it in [try: ... except: pass]. *)
Definition exec (op : Op) (w : World) : World :=
  match op with
  | Call func => snd (call func w)
  | Reset => snd (reset w)
  | GetState => snd (get_state w)
  | IsOpen => snd (is_open w)
  | IsClosed => snd (is_closed w)
  | IsHalfOpen => snd (is_half_open w)
  end.

(** The world after a sequence of operations, first to last. *)
Definition execs (ops : list Op) (w : World) : World :=
  fold_left (fun w op => exec op w) ops w.

(** A freshly constructed breaker, with nothing run yet. *)
Definition fresh (s : settings.CircuitBreakerSettings) (clk : nat -> Z) : World :=
  mkWorld (__init__ s) clk 0%nat 0%nat.

Definition failing (es : list PyExc) : list Op := map (fun e => Call (Raises e)) es.

Definition succeeding (vs : list V) : list Op := map (fun v => Call (Returns v)) vs.

(** *** What happened in a run, for the statements about OPEN *)

(** Less than [timeout] seconds lie between [last_failure_time] and the
    instant the clock shows next: the cool-down is not over for a call
    that arrives now.  Without a failure time there is no cool-down. *)
Definition within_cooldown (w : World) : bool :=
  match last_failure_time (self w) with
  | Some t => clock w (ticks w) - t <? timeout (self w) * us_per_s
  | None => false
  end.

(** The operation [op], made in world [w], trips the breaker: it is a call
    whose operation raises, made either while CLOSED with this failure
    taking the count to the threshold, or as a trial, that is while
    HALF_OPEN with trial calls left, or while OPEN with the cool-down over
    (and a trial quota of at least one). *)
Definition trips (w : World) (op : Op) : bool :=
  match op with
  | Call (Raises _) =>
      match state (self w) with
      | CLOSED => failure_threshold (self w) <=? failure_count (self w) + 1
      | HALF_OPEN => half_open_calls (self w) <? half_open_max_calls (self w)
      | OPEN => negb (within_cooldown w) && (0 <? half_open_max_calls (self w))
      end
  | _ => false
  end.

(** The operation [op], made in world [w], is a read-only accessor or a
    call that arrives before the cool-down is over. *)
Definition quiet (w : World) (op : Op) : bool :=
  match op with
  | Call _ => within_cooldown w
  | Reset => false
  | GetState | IsOpen | IsClosed | IsHalfOpen => true
  end.

Fixpoint all_quiet (ops : list Op) (w : World) : bool :=
  match ops with
  | [] => true
  | op :: ops' => quiet w op && all_quiet ops' (exec op w)
  end.

(** Some call of the run [ops], started in [w0], tripped the breaker. *)
Definition tripped (ops : list Op) (w0 : World) : Prop :=
  exists pre c post, ops = (pre ++ c :: post)%list /\ trips (execs pre w0) c = true.

(** Some call of the run tripped the breaker and nothing but accessors and
    calls within the cool-down came after it. *)
Definition tripped_and_held (ops : list Op) (w0 : World) : Prop :=
  exists pre c post,
    ops = (pre ++ c :: post)%list
    /\ trips (execs pre w0) c = true
    /\ all_quiet post (exec c (execs pre w0)) = true.

(** The cool-down is still running at the instant the clock shows next. *)
Definition cooling (w : World) : Prop :=
  exists t, last_failure_time (self w) = Some t
            /\ clock w (ticks w) - t < timeout (self w) * us_per_s.

(** The breaker is OPEN exactly when it was tripped and the cool-down has
    not run out. *)
Definition open_iff_cooling (ops : list Op) (w0 : World) : Prop :=
  state (self (execs ops w0)) = OPEN <-> tripped ops w0 /\ cooling (execs ops w0).

(** The outcome of the operation, as the caller of [call] sees it. *)
Definition seen (func : Outcome) : Res V :=
  match func with
  | Returns v => Ok v
  | Raises e => Raised e
  end.

End Breaker.

(** *** The handlers as functions on the instance *)

(** The instance after [_on_success]. *)
Definition after_success (cb : CircuitBreaker) : CircuitBreaker :=
  match state cb with
  | HALF_OPEN =>
      if half_open_max_calls cb <=? half_open_calls cb + 1 then
        mkCB (failure_threshold cb) (timeout cb) (half_open_max_calls cb) CLOSED 0 None 0
      else set_half_open_calls (half_open_calls cb + 1) cb
  | CLOSED => if 0 <? failure_count cb then set_failure_count 0 cb else cb
  | OPEN => cb
  end.

(** The instance after [_on_failure], when the clock shows [now]. *)
Definition after_failure (now : Z) (cb : CircuitBreaker) : CircuitBreaker :=
  let cb' := set_last_failure_time (Some now) (set_failure_count (failure_count cb + 1) cb) in
  match state cb with
  | HALF_OPEN => set_half_open_calls 0 (set_state OPEN cb')
  | CLOSED =>
      if failure_threshold cb <=? failure_count cb + 1 then set_state OPEN cb' else cb'
  | OPEN => cb'
  end.

(** *** Invariants of the instance *)

(** A CLOSED breaker has no trial calls on record, and a breaker that is
    not CLOSED has a failure count at or above the threshold. *)
Definition counters_consistent (cb : CircuitBreaker) : Prop :=
  (state cb = CLOSED -> half_open_calls cb = 0)
  /\ (state cb <> CLOSED -> failure_threshold cb <= failure_count cb).

(** A HALF_OPEN breaker has trial calls left. *)
Definition quota_left (cb : CircuitBreaker) : Prop :=
  state cb = HALF_OPEN -> 0 <= half_open_calls cb < half_open_max_calls cb.

(** The configuration of an instance. *)
Definition config (cb : CircuitBreaker) : Z * Z * Z :=
  (failure_threshold cb, timeout cb, half_open_max_calls cb).

(** *** Inputs for running the model *)

(** A clock whose readings are [period] seconds apart, starting at 0. *)
Definition regular_clock (period : Z) (n : nat) : Z := Z.of_nat n * period * us_per_s.

(** The failing operation of the unit tests. *)
Definition service_unavailable : PyExc := RuntimeError "Service unavailable".

(** A breaker with the default settings on trial since a failure at
    instant 0, with one of its three trial calls used. *)
Definition on_trial (readings : nat) : World :=
  mkWorld (mkCB 5 60 3 HALF_OPEN 5 (Some 0) 1) (regular_clock 1) readings 6%nat.

(** A breaker with the default settings that opened at instant 0. *)
Definition opened_at_0 (readings : nat) : World :=
  mkWorld (mkCB 5 60 3 OPEN 5 (Some 0) 0) (regular_clock 1) readings 5%nat.

(** A rendering of seconds with one decimal, for running examples. *)
Definition tenths (us : Z) : string :=
  str_of_int (us / us_per_s) ++ "." ++ str_of_int ((us / 100000) mod 10).

Arguments Returns {V} v.
Arguments Raises {V} e.
Arguments Call {V} func.
Arguments Reset {V}.
Arguments GetState {V}.
Arguments IsOpen {V}.
Arguments IsClosed {V}.
Arguments IsHalfOpen {V}.
Arguments invoke {V} func.
Arguments failing {V} es.
Arguments succeeding {V} vs.
Arguments seen {V} func.

End circuit_breaker.

(* ===================================================================== *)
(** ** src/resilience/health_probes.py                                    *)
(* ===================================================================== *)

Module health_probes.

(** The part of [Settings] the probes read. *)
Record Settings : Type := mkSettings {
  elasticsearch_url : string;
  llm_base_url : option string;      (* [settings.llm], which may be [None] *)
  lmstudio_base_url : string;
  check_timeout : Z
}.

(** What the search engine does when a client is built and asked for the
    cluster health. *)
Inductive EsCluster : Type :=
| HealthRaises (e : PyExc)
| HealthReturns (health : PyDict).

Inductive EsConnect : Type :=
| ConnectRaises (e : PyExc)
| Connected (c : EsCluster).

(** What the HTTP client does on a [GET]: it raises (a time-out, a refused
    connection, ...) or gives a response with a status code. *)
Inductive HttpReply : Type :=
| GetRaises (e : PyExc)
| Response (status_code : Z).

(** The classes of [httpx] that derive from [httpx.TimeoutException]. *)
Definition TimeoutException_classes : list string :=
  ["TimeoutException"; "ConnectTimeout"; "ReadTimeout"; "WriteTimeout"; "PoolTimeout"].

Record HealthProbes : Type := mkHP {
  hp_settings : Settings;
  timeout : Z;
  startup_complete : bool
}.

(** The instance and the services around it.  [es_service n] is what the
    [n]-th construction of an [Elasticsearch] client meets, [http_service
    url n] what the [n]-th request meets when sent to [url]; [es_calls]
    and [http_calls] count the constructions and requests made so far,
    as a spy on the patched classes does.  [utc_clock n] is the instant
    of the [n]-th evaluation of [datetime.utcnow()]. *)
Record World : Type := mkWorld {
  self : HealthProbes;
  es_service : nat -> EsConnect;
  es_calls : nat;
  http_service : string -> nat -> HttpReply;
  http_calls : nat;
  utc_clock : nat -> Z;
  utc_ticks : nat
}.

Definition attr {A} (f : HealthProbes -> A) : M World A :=
  gets (fun w => f (self w)).

Definition set_startup_complete (v : bool) : M World unit :=
  modify (fun w =>
    mkWorld (mkHP (hp_settings (self w)) (timeout (self w)) v)
            (es_service w) (es_calls w) (http_service w) (http_calls w)
            (utc_clock w) (utc_ticks w)).

(** [HealthProbes.__init__], given the result of [get_settings()]. *)
Definition __init__ (s : Settings) : HealthProbes :=
  mkHP s (check_timeout s) false.

(** [Elasticsearch(hosts=[url], timeout=t)] *)
Definition Elasticsearch (url : string) (t : Z) : M World EsCluster :=
  fun w =>
    (match es_service w (es_calls w) with
     | ConnectRaises e => Raised e
     | Connected c => Ok c
     end,
     mkWorld (self w) (es_service w) (S (es_calls w)) (http_service w)
             (http_calls w) (utc_clock w) (utc_ticks w)).

(** [es.cluster.health()] *)
Definition cluster_health (es : EsCluster) : M World PyDict :=
  match es with
  | HealthRaises e => raise e
  | HealthReturns health => ret health
  end.

(** [d[k]] *)
Definition getitem (d : PyDict) (k : string) : M World PyVal :=
  match dict_get k d with
  | Some v => ret v
  | None => raise (KeyError k)
  end.

(** [v in [s1, s2, ...]] for a list of strings. *)
Definition in_strings (v : PyVal) (l : list string) : bool :=
  match v with
  | VStr s => existsb (String.eqb s) l
  | _ => false
  end.

(** [async with httpx.AsyncClient(timeout=t) as client: await client.get(url)] *)
Definition client_get (t : Z) (url : string) : M World Z :=
  fun w =>
    (match http_service w url (http_calls w) with
     | GetRaises e => Raised e
     | Response code => Ok code
     end,
     mkWorld (self w) (es_service w) (es_calls w) (http_service w)
             (S (http_calls w)) (utc_clock w) (utc_ticks w)).

(** [datetime.utcnow()] *)
Definition datetime_utcnow : M World Z :=
  fun w =>
    (Ok (utc_clock w (utc_ticks w)),
     mkWorld (self w) (es_service w) (es_calls w) (http_service w)
             (http_calls w) (utc_clock w) (S (utc_ticks w))).

Definition status_of (healthy : bool) : PyVal :=
  VStr (if healthy then "healthy" else "unhealthy").

Section Probes.

(** [d.isoformat()] for an instant [d]. *)
Variable isoformat : Z -> string.

Definition liveness : M World PyDict :=
  ts <- datetime_utcnow ;;
  ret [ ("status", VStr "healthy");
        ("timestamp", VStr (isoformat ts));
        ("probe", VStr "liveness") ].

Definition _check_elasticsearch : M World bool :=
  try_except
    (s <- attr hp_settings ;;
     t <- attr timeout ;;
     es <- Elasticsearch (elasticsearch_url s) t ;;
     health <- cluster_health es ;;
     status <- getitem health "status" ;;
     let is_healthy := in_strings status ["green"; "yellow"] in
     ret is_healthy)
    (fun e => ret false).

Definition _check_lmstudio : M World bool :=
  try_except
    (s <- attr hp_settings ;;
     let base_url := match llm_base_url s with
                     | Some url => url
                     | None => lmstudio_base_url s
                     end in
     t <- attr timeout ;;
     status_code <- client_get t (base_url ++ "/models") ;;
     let is_healthy := status_code =? 200 in
     ret is_healthy)
    (fun e =>
       if isinstance e TimeoutException_classes then ret false
       else ret false).

Definition readiness : M World PyDict :=
  let checks : PyDict := [] in
  let overall_healthy := true in
  es_healthy <- _check_elasticsearch ;;
  let checks := dict_set "elasticsearch"
                         (VDict [ ("status", status_of es_healthy);
                                  ("required", VBool true) ]) checks in
  let overall_healthy := overall_healthy && es_healthy in
  lm_healthy <- _check_lmstudio ;;
  let checks := dict_set "lmstudio"
                         (VDict [ ("status", status_of lm_healthy);
                                  ("required", VBool true) ]) checks in
  let overall_healthy := overall_healthy && lm_healthy in
  ts <- datetime_utcnow ;;
  ret [ ("status", status_of overall_healthy);
        ("timestamp", VStr (isoformat ts));
        ("probe", VStr "readiness");
        ("checks", VDict checks) ].

(** The [if not self.startup_complete:] block of [startup]: [Some d]
    when it returns [d] from its [except] clause, [None] when control
    falls through to the final [return]. *)
Definition startup_checks : M World (option PyDict) :=
  complete <- attr startup_complete ;;
  if negb complete then
    try_except
      (ok <- _check_elasticsearch ;;
       (if negb ok then raise (RuntimeError "Elasticsearch not accessible")
        else ret tt) ;;
       set_startup_complete true ;;
       ret None)
      (fun e =>
         ts <- datetime_utcnow ;;
         ret (Some [ ("status", VStr "unhealthy");
                     ("timestamp", VStr (isoformat ts));
                     ("probe", VStr "startup");
                     ("error", VStr (str e)) ]))
  else ret None.

Definition startup : M World PyDict :=
  returned <- startup_checks ;;
  match returned with
  | Some d => ret d
  | None =>
      ts <- datetime_utcnow ;;
      ret [ ("status", VStr "healthy");
            ("timestamp", VStr (isoformat ts));
            ("probe", VStr "startup") ]
  end.

Definition reset_startup : M World unit := set_startup_complete false.

(** *** Sequences of probe calls *)

Inductive Probe : Type := Liveness | Readiness | Startup.

Definition probe (p : Probe) : M World PyDict :=
  match p with
  | Liveness => liveness
  | Readiness => readiness
  | Startup => startup
  end.

Definition probes (ps : list Probe) (w : World) : World :=
  fold_left (fun w p => snd (probe p w)) ps w.

End Probes.

(** *** Names for the statements, and inputs for running the model *)

(** The URL [_check_lmstudio] requests. *)
Definition models_url (s : Settings) : string :=
  match llm_base_url s with
  | Some url => url
  | None => lmstudio_base_url s
  end ++ "/models".

(** What the services answer to the next check made in [w]. *)
Definition es_now (w : World) : EsConnect := es_service w (es_calls w).

Definition http_now (w : World) : HttpReply :=
  http_service w (models_url (hp_settings (self w))) (http_calls w).

(** The dictionary [startup] and [liveness] return when all is well. *)
Definition healthy_result (isoformat : Z -> string) (name : string) (ts : Z) : PyDict :=
  [ ("status", VStr "healthy");
    ("timestamp", VStr (isoformat ts));
    ("probe", VStr name) ].

(** The [checks] entry of one dependency. *)
Definition check_entry (healthy : bool) : PyVal :=
  VDict [ ("status", status_of healthy); ("required", VBool true) ].

Definition local_settings : Settings :=
  mkSettings "http://localhost:9200" None "http://localhost:1234/v1" 1.

Definition cluster (status : string) : EsConnect :=
  Connected (HealthReturns [ ("status", VStr status) ]).

(** A just-built instance facing services that always answer the same. *)
Definition steady (es : EsConnect) (http : HttpReply) : World :=
  mkWorld (__init__ local_settings) (fun _ => es) 0%nat (fun _ _ => http) 0%nat
          (fun n => Z.of_nat n * us_per_s) 0%nat.

(** A search engine that refuses the first connection and is green from
    then on. *)
Definition late_cluster (n : nat) : EsConnect :=
  match n with
  | O => ConnectRaises (mkExc "ConnectionError" "Connection refused")
  | S _ => cluster "green"
  end.

(** A just-built instance facing that search engine. *)
Definition late_start : World :=
  mkWorld (__init__ local_settings) late_cluster 0%nat (fun _ _ => Response 200) 0%nat
          (fun n => Z.of_nat n * us_per_s) 0%nat.

(** A rendering of instants for running examples: the second count. *)
Definition epoch_seconds (us : Z) : string := str_of_int (us / us_per_s).

End health_probes.


(* ===================================================================== *)
(** ** Runs of calls through one breaker                                  *)
(* ===================================================================== *)

Module breaker_runs.

Import circuit_breaker.

(** The counters are not negative, and a breaker that is not CLOSED, or
    that counts a failure, has a failure time on record. *)
Definition bookkeeping (cb : CircuitBreaker) : Prop :=
  0 <= failure_count cb
  /\ 0 <= half_open_calls cb
  /\ (state cb <> CLOSED -> last_failure_time cb <> None)
  /\ (0 < failure_count cb -> last_failure_time cb <> None).

Section Runs.

Variable V : Type.

(** The calls of a run, one per outcome of the wrapped operation. *)
Definition calls (funcs : list (Outcome V)) : list (Op V) := map Call funcs.

(** The number of failures at the end of a run of outcomes, counted on
    from [cur] failures before it. *)
Fixpoint streak (cur : Z) (funcs : list (Outcome V)) : Z :=
  match funcs with
  | [] => cur
  | Returns _ :: funcs' => streak 0 funcs'
  | Raises _ :: funcs' => streak (cur + 1) funcs'
  end.

(** No failures in a row of the run, counted on from [cur], reach
    [threshold]. *)
Fixpoint streaks_below (threshold cur : Z) (funcs : list (Outcome V)) : bool :=
  match funcs with
  | [] => true
  | Returns _ :: funcs' => streaks_below threshold 0 funcs'
  | Raises _ :: funcs' =>
      (cur + 1 <? threshold) && streaks_below threshold (cur + 1) funcs'
  end.

End Runs.

Arguments calls {V} funcs.
Arguments streak {V} cur funcs.
Arguments streaks_below {V} threshold cur funcs.

End breaker_runs.

(* ===================================================================== *)
(** ** What the search engine's answer is worth                           *)
(* ===================================================================== *)

Module probe_runs.

Import health_probes.

(** The answer of the search engine that [_check_elasticsearch] takes for
    healthy: a client could be built, the health request returned, and the
    status it gave is the string green or yellow. *)
Definition reply_healthy (c : EsConnect) : bool :=
  match c with
  | Connected (HealthReturns health) =>
      match dict_get "status" health with
      | Some status => in_strings status ["green"; "yellow"]
      | None => false
      end
  | _ => false
  end.

End probe_runs.

(* ===================================================================== *)
(** ** src/api/health.py                                                  *)
(* ===================================================================== *)

Module api_health.

Import health_probes.

(** [status.HTTP_503_SERVICE_UNAVAILABLE] *)
Definition HTTP_503_SERVICE_UNAVAILABLE : Z := 503.

(** [v != s] for a string literal [s]. *)
Definition differs (v : PyVal) (s : string) : bool :=
  match v with
  | VStr s' => negb (String.eqb s' s)
  | _ => true
  end.

Section Endpoints.

Variable isoformat : Z -> string.

(** The endpoints run on the module's one [HealthProbes] instance, the
    [self] of the world.  An endpoint that is handed the [Response] of the
    request gets the [status_code] it finds there ([None] unless set) and
    gives back, with the body, the [status_code] it leaves there. *)

Definition liveness : M World PyDict :=
  result <- health_probes.liveness isoformat ;;
  ret result.

Definition readiness (status_code : option Z) : M World (PyDict * option Z) :=
  result <- health_probes.readiness isoformat ;;
  st <- getitem result "status" ;;
  if differs st "healthy" then
    ret (result, Some HTTP_503_SERVICE_UNAVAILABLE)
  else
    ret (result, status_code).

Definition startup (status_code : option Z) : M World (PyDict * option Z) :=
  result <- health_probes.startup isoformat ;;
  st <- getitem result "status" ;;
  if differs st "healthy" then
    ret (result, Some HTTP_503_SERVICE_UNAVAILABLE)
  else
    ret (result, status_code).

End Endpoints.

End api_health.

(* ===================================================================== *)
(** ** src/ai_models/litellm_interface.py and its settings                *)
(* ===================================================================== *)

Module litellm_interface.

Import circuit_breaker.

(** A Python [float] (or [int]) as far as comparisons see it: the exact
    value of a finite number, or one of the special values. *)
Inductive Number : Type :=
| Finite (q : Q)
| NotANumber
| Infinite (negative : bool).

(** [0.0 <= t <= 2.0] *)
Definition in_range (t : Number) : bool :=
  match t with
  | Finite q => Qle_bool 0 q && Qle_bool q 2
  | NotANumber => false
  | Infinite _ => false
  end.

(** *** [LLMSettings] and [LMStudioSettings] of src/config/settings.py *)

Record LLMSettings : Type := mkLLMSettings {
  s_provider : string;
  s_base_url : string;
  s_model : string;
  s_api_key : string;
  s_timeout : Z;
  s_temperature : Number;
  s_max_tokens : Z
}.

Definition validate_timeout (v : Z) : Res Z :=
  if v <=? 0 then Raised (ValueError "timeout must be a positive integer") else Ok v.

Definition validate_temperature (v : Number) : Res Number :=
  if negb (in_range v) then
    Raised (ValueError "temperature must be between 0.0 and 2.0")
  else Ok v.

Definition validate_max_tokens (v : Z) : Res Z :=
  if v <=? 0 then Raised (ValueError "max_tokens must be a positive integer") else Ok v.

(** The numeric fields of the settings passed their validators. *)
Definition llm_validated (s : LLMSettings) : Prop :=
  validate_timeout (s_timeout s) = Ok (s_timeout s)
  /\ validate_temperature (s_temperature s) = Ok (s_temperature s)
  /\ validate_max_tokens (s_max_tokens s) = Ok (s_max_tokens s).

Record LMStudioSettings : Type := mkLMStudioSettings {
  l_base_url : string;
  l_chat_model : string;
  l_api_key : option string;
  l_timeout : Z
}.

(** *** [LLMInterface] *)

(** The attributes of an [LLMInterface], the breaker apart: that one is
    the [self] of the world the methods run in. *)
Record LLMInterface : Type := mkLLM {
  provider : string;
  base_url : string;
  model : string;
  api_key : string;
  timeout : Z;
  default_temperature : Number;
  default_max_tokens : Z
}.

(** [LLMInterface.__init__], given [settings.llm] and [settings.lmstudio].
    The literal [0.7] stands for the float nearest to it, which compares
    with 0 and 2 as 7/10 does. *)
Definition __init__ (llm : option LLMSettings) (lmstudio : LMStudioSettings)
    : LLMInterface :=
  match llm with
  | Some s =>
      mkLLM (s_provider s) (s_base_url s) (s_model s) (s_api_key s)
            (s_timeout s) (s_temperature s) (s_max_tokens s)
  | None =>
      mkLLM "lmstudio" (l_base_url lmstudio) (l_chat_model lmstudio)
            (match l_api_key lmstudio with
             | Some key => key
             | None => "lmstudio"
             end)
            (l_timeout lmstudio) (Finite (7 # 10)) 15000
  end.

(** [d[k]] *)
Definition getitem {W} (d : PyDict) (k : string) : M W PyVal :=
  match dict_get k d with
  | Some v => ret v
  | None => raise (KeyError k)
  end.

(** [v in [s1, s2, ...]] for a list of strings. *)
Definition in_strings (v : PyVal) (l : list string) : bool :=
  match v with
  | VStr s => existsb (String.eqb s) l
  | _ => false
  end.

(** [len(content)]: the length itself only goes into a log line. *)
Definition len {W} (content : option string) : M W unit :=
  match content with
  | Some _ => ret tt
  | None => raise (mkExc "TypeError" "object of type 'NoneType' has no len()")
  end.

Section Interface.

Variable format_1f : Z -> string.
Variable isoformat : Z -> string.

(** [f"{d}"] for a dictionary [d]. *)
Variable format_dict : PyDict -> string.

(** [f"{v}"] *)
Definition fstr (v : PyVal) : string :=
  match v with
  | VStr s => s
  | VInt z => str_of_int z
  | VNone => "None"
  | VBool true => "True"
  | VBool false => "False"
  | VDict d => format_dict d
  end.

(** The [for i, msg in enumerate(messages)] loop of [chat_completion],
    from index [i] on. *)
Fixpoint check_messages (i : nat) (messages : list PyVal) : Res unit :=
  match messages with
  | [] => Ok tt
  | msg :: rest =>
      let n := str_of_int (Z.of_nat i) in
      match msg with
      | VDict d =>
          match dict_get "role" d, dict_get "content" d with
          | Some role, Some _ =>
              if negb (in_strings role ["system"; "user"; "assistant"]) then
                Raised (ValueError
                          ("Message " ++ n ++ " has invalid role '" ++ fstr role ++ "'. "
                           ++ "Must be 'system', 'user', or 'assistant'"))
              else check_messages (S i) rest
          | _, _ =>
              Raised (ValueError ("Message " ++ n ++ " must have 'role' and 'content' keys"))
          end
      | _ => Raised (ValueError ("Message " ++ n ++ " must be a dictionary"))
      end
  end.

(** The statements of [chat_completion] before its [try]: the checks of
    the arguments. *)
Definition check_arguments (llm : LLMInterface) (messages : list PyVal)
    (temperature : option Number) (max_tokens : option Z) : Res unit :=
  match messages with
  | [] => Raised (ValueError "messages list cannot be empty")
  | _ :: _ =>
      match check_messages 0 messages with
      | Raised e => Raised e
      | Ok _ =>
          let temperature := match temperature with
                             | Some t => t
                             | None => default_temperature llm
                             end in
          let max_tokens := match max_tokens with
                            | Some n => n
                            | None => default_max_tokens llm
                            end in
          if negb (in_range temperature) then
            Raised (ValueError "temperature must be between 0.0 and 2.0")
          else if max_tokens <=? 0 then
            Raised (ValueError "max_tokens must be a positive integer")
          else Ok tt
      end
  end.

Definition fallback_message (st failures : PyVal) : string :=
  "The AI service is temporarily unavailable due to repeated failures. "
  ++ "The service will attempt to recover automatically. "
  ++ "Current state: " ++ fstr st ++ ", "
  ++ "failures: " ++ fstr failures ++ ". "
  ++ "Please try again in a moment.".

(** [chat_completion]; [completion] is what [_call_llm] does when it is
    run: it returns the content of the first choice, which may be [None],
    or raises. *)
Definition chat_completion (llm : LLMInterface) (messages : list PyVal)
    (temperature : option Number) (max_tokens : option Z)
    (completion : Outcome (option string)) : M World (option string) :=
  match check_arguments llm messages temperature max_tokens with
  | Raised e => raise e
  | Ok _ =>
      try_except
        (content <- call (option string) format_1f completion ;;
         len content ;;
         ret content)
        (fun e =>
           if isinstance e ["CircuitBreakerError"] then
             circuit_state <- get_state isoformat ;;
             st <- getitem circuit_state "state" ;;
             failures <- getitem circuit_state "failure_count" ;;
             raise (RuntimeError (fallback_message st failures))
           else
             raise (RuntimeError ("Failed to generate completion: " ++ str e)))
  end.

End Interface.

(** *** Arguments as [chat_completion] wants them *)

(** A message that is a dictionary with a [content] and with a [role] that
    is one of the strings system, user and assistant. *)
Definition well_formed (msg : PyVal) : bool :=
  match msg with
  | VDict d =>
      match dict_get "role" d, dict_get "content" d with
      | Some (VStr role), Some _ =>
          String.eqb role "system" || String.eqb role "user"
          || String.eqb role "assistant"
      | _, _ => false
      end
  | _ => false
  end.

(** A finite number between 0 and 2, both included. *)
Definition moderate (t : Number) : Prop :=
  exists q : Q, t = Finite q /\ (0 <= q)%Q /\ (q <= 2)%Q.

(** *** Inputs for running the model *)

Definition hello : list PyVal :=
  [ VDict [ ("role", VStr "user"); ("content", VStr "Hello!") ] ].

Definition local_lmstudio : LMStudioSettings :=
  mkLMStudioSettings "http://localhost:1234/v1" "llama-3.2-3b-instruct" None 30.

Definition no_format (d : PyDict) : string := "{...}".

End litellm_interface.

(* ===================================================================== *)
(** ** src/config/settings.py: the base URL the probes and the LLM use    *)
(* ===================================================================== *)

Module settings_url.

(** [s.rstrip("/")]: [s] without the slashes at its end.  A string is
    the sequence of its UTF-8 bytes; the byte of the slash occurs in no
    longer character, so stripping bytes and stripping characters agree. *)
Fixpoint rstrip_slash (s : string) : string :=
  match s with
  | EmptyString => EmptyString
  | String c rest =>
      match rstrip_slash rest with
      | EmptyString => if Ascii.eqb c "/"%char then EmptyString else String c EmptyString
      | String c' rest' => String c (String c' rest')
      end
  end.

(** [validate_url] of [LLMSettings], [LMStudioSettings] and
    [EmbedderSettings]. *)
Definition validate_url (v : string) : Res string :=
  if negb (String.prefix "http://" v || String.prefix "https://" v) then
    Raised (ValueError "base_url must start with http:// or https://")
  else Ok (rstrip_slash v).

(** [n] slashes. *)
Fixpoint slashes (n : nat) : string :=
  match n with
  | O => EmptyString
  | S n' => String "/"%char (slashes n')
  end.

(** [s.endswith("/")] *)
Fixpoint ends_with_slash (s : string) : bool :=
  match s with
  | EmptyString => false
  | String c EmptyString => Ascii.eqb c "/"%char
  | String _ rest => ends_with_slash rest
  end.

End settings_url.

(* ===================================================================== *)
(** * Properties of the circuit breaker                                   *)
(* ===================================================================== *)

Module CircuitBreakerSpec.

Import circuit_breaker.

(** Symbolic execution of a method: unfold the monad and the methods,
    leaving the integer comparisons in place. *)
Ltac py_run :=
  cbv beta iota zeta delta
    [call admission _should_attempt_reset _on_success _on_failure invoke
     reset get_state is_open is_closed is_half_open circuit_breaker.exec
     counters_consistent quota_left config
     attr setattr datetime_now
     bind ret raise try_except gets modify when
     set_state set_failure_count set_last_failure_time set_half_open_calls
     after_success after_failure
     self clock ticks invocations
     failure_threshold timeout half_open_max_calls state failure_count
     last_failure_time half_open_calls
     state_eqb total_seconds_ge andb fst snd].

(** Settle an integer test from the context. *)
Ltac leb_true := rewrite (proj2 (Z.leb_le _ _)) by lia.
Ltac leb_false := rewrite (proj2 (Z.leb_gt _ _)) by lia.
Ltac ltb_true := rewrite (proj2 (Z.ltb_lt _ _)) by lia.
Ltac ltb_false := rewrite (proj2 (Z.ltb_ge _ _)) by lia.

(** Case analysis on every integer test of the goal. *)
Ltac split_tests :=
  repeat match goal with
         | |- context [?a <=? ?b] => destruct (Z.leb_spec a b)
         | |- context [?a <? ?b] => destruct (Z.ltb_spec a b)
         end.

Ltac open_world w :=
  destruct w as [[ft tmo hm st fc lft hc] clk tk inv]; simpl in *; subst.

(** The same, touching nothing but the field projections. *)
Ltac open_fields w :=
  destruct w as [[ft tmo hm st fc lft hc] clk tk inv];
  cbn [self clock ticks invocations
       failure_threshold timeout half_open_max_calls state failure_count
       last_failure_time half_open_calls] in *;
  subst.

(** *** The settings *)

(** Settings that passed the validators have positive fields: the breaker
    is never built with a threshold, a time-out or a trial quota below 1. *)
Lemma validated_positive (s : settings.CircuitBreakerSettings) :
  settings.validated s ->
  1 <= settings.failure_threshold s
  /\ 1 <= settings.timeout_seconds s
  /\ 1 <= settings.half_open_max_calls s.
Proof.
  unfold settings.validated, settings.make, settings.validate_positive.
  destruct (Z.leb_spec (settings.failure_threshold s) 0);
    destruct (Z.leb_spec (settings.timeout_seconds s) 0);
    destruct (Z.leb_spec (settings.half_open_max_calls s) 0);
    intros Hmake; try discriminate Hmake; lia.
Qed.

Lemma default_validated : settings.validated settings.default.
Proof. reflexivity. Qed.

Section Breaker.

Variable V : Type.
Variable format_1f : Z -> string.
Variable isoformat : Z -> string.

Local Abbreviation call := (call V format_1f).
Local Abbreviation admission := (admission format_1f).
Local Abbreviation open_message := (open_message format_1f).
Local Abbreviation exec := (exec V format_1f isoformat).
Local Abbreviation execs := (execs V format_1f isoformat).
Local Abbreviation trips := (trips V).
Local Abbreviation quiet := (quiet V).
Local Abbreviation all_quiet := (all_quiet V format_1f isoformat).

(** *** The blocks of [call], one at a time *)

Lemma on_success_eq (w : World) :
  _on_success w
  = (Ok tt, mkWorld (after_success (self w)) (clock w) (ticks w) (invocations w)).
Proof.
  open_world w. destruct st; py_run.
  - destruct (0 <? fc); reflexivity.
  - reflexivity.
  - destruct (hm <=? hc + 1); reflexivity.
Qed.

Lemma on_failure_eq (e : PyExc) (w : World) :
  _on_failure e w
  = (Ok tt, mkWorld (after_failure (clock w (ticks w)) (self w))
                    (clock w) (S (ticks w)) (invocations w)).
Proof.
  open_world w. destruct st; py_run.
  - destruct (ft <=? fc + 1); reflexivity.
  - reflexivity.
  - reflexivity.
Qed.

Lemma call_eq (func : Outcome V) (w : World) :
  call func w
  = match admission w with
    | (Ok _, w') =>
        match func with
        | Returns v =>
            (Ok v, mkWorld (after_success (self w')) (clock w') (ticks w')
                           (S (invocations w')))
        | Raises e =>
            (Raised e, mkWorld (after_failure (clock w' (ticks w')) (self w'))
                               (clock w') (S (ticks w')) (S (invocations w')))
        end
    | (Raised e, w') => (Raised e, w')
    end.
Proof.
  unfold circuit_breaker.call, bind, try_except.
  destruct (admission w) as [[[] | e] w']; [| reflexivity].
  destruct func as [v | e]; unfold invoke.
  - rewrite on_success_eq. reflexivity.
  - rewrite on_failure_eq. reflexivity.
Qed.

(** Outside OPEN the admission check reads no clock and only looks at the
    HALF_OPEN quota. *)
Lemma admission_not_open (w : World) :
  state (self w) <> OPEN ->
  admission w
  = if state_eqb (state (self w)) HALF_OPEN
       && (half_open_max_calls (self w) <=? half_open_calls (self w))
    then (Raised (CircuitBreakerError
                    (half_open_message (half_open_max_calls (self w)))), w)
    else (Ok tt, w).
Proof.
  intros Hst. open_world w. destruct st; try congruence; py_run.
  - reflexivity.
  - destruct (hm <=? hc); reflexivity.
Qed.

(** In OPEN, before the end of the cool-down: rejected, after two readings
    of the clock. *)
Lemma admission_open_wait (w : World) (t : Z) :
  state (self w) = OPEN ->
  last_failure_time (self w) = Some t ->
  clock w (ticks w) - t < timeout (self w) * us_per_s ->
  admission w
  = (Raised (CircuitBreakerError
               (open_message (Z.max 0 (timeout (self w) * us_per_s
                                       - (clock w (S (ticks w)) - t))))),
     mkWorld (self w) (clock w) (S (S (ticks w))) (invocations w)).
Proof.
  intros Hst Hlft Hel. open_world w. py_run. leb_false. reflexivity.
Qed.

(** In OPEN, at or after the end of the cool-down: HALF_OPEN, then the
    quota check. *)
Lemma admission_open_probe (w : World) (t : Z) :
  state (self w) = OPEN ->
  last_failure_time (self w) = Some t ->
  timeout (self w) * us_per_s <= clock w (ticks w) - t ->
  admission w
  = let w' := mkWorld (set_half_open_calls 0 (set_state HALF_OPEN (self w)))
                      (clock w) (S (ticks w)) (invocations w) in
    if half_open_max_calls (self w) <=? 0
    then (Raised (CircuitBreakerError
                    (half_open_message (half_open_max_calls (self w)))), w')
    else (Ok tt, w').
Proof.
  intros Hst Hlft Hel. open_world w. py_run. leb_true.
  destruct (hm <=? 0); reflexivity.
Qed.

(** In OPEN with no failure on record: HALF_OPEN without reading the
    clock. *)
Lemma admission_open_no_failure (w : World) :
  state (self w) = OPEN ->
  last_failure_time (self w) = None ->
  admission w
  = let w' := mkWorld (set_half_open_calls 0 (set_state HALF_OPEN (self w)))
                      (clock w) (ticks w) (invocations w) in
    if half_open_max_calls (self w) <=? 0
    then (Raised (CircuitBreakerError
                    (half_open_message (half_open_max_calls (self w)))), w')
    else (Ok tt, w').
Proof.
  intros Hst Hlft. open_world w. py_run.
  destruct (hm <=? 0); reflexivity.
Qed.

(** *** One call *)


(** C3: when the breaker admits the call (it is CLOSED, or HALF_OPEN with
    trial calls left, or OPEN with the cool-down over, which makes the call
    the first trial) and the operation raises [e], [call] has run the
    operation once, adds one to [failure_count], sets [last_failure_time]
    to the clock reading it makes for the failure, as a trial goes back to
    OPEN with [half_open_calls = 0] (in CLOSED it opens exactly when the
    new count reaches the threshold), and raises [e] itself, the same in
    class and message: the breaker puts no error of its own in its place,
    so what the caller gets is a [CircuitBreakerError] only if [e] is
    one. *)
Theorem admitted_failure_reraised (w : World) (e : PyExc) :
  state (self w) = CLOSED
  \/ (state (self w) = HALF_OPEN
      /\ half_open_calls (self w) < half_open_max_calls (self w))
  \/ (state (self w) = OPEN
      /\ 0 < half_open_max_calls (self w)
      /\ exists t, last_failure_time (self w) = Some t
                   /\ timeout (self w) * us_per_s <= clock w (ticks w) - t) ->
  let w' := snd (call (Raises e) w) in
  fst (call (Raises e) w) = Raised e
  /\ (forall e', fst (call (Raises e) w) = Raised e' ->
                 exc_class e' = exc_class e /\ exc_msg e' = exc_msg e)
  /\ (exc_class e <> "CircuitBreakerError" ->
      forall e', fst (call (Raises e) w) = Raised e' ->
                 exc_class e' <> "CircuitBreakerError")
  /\ invocations w' = S (invocations w)
  /\ failure_count (self w') = failure_count (self w) + 1
  /\ last_failure_time (self w')
     = Some (clock w (match state (self w) with
                      | OPEN => S (ticks w)
                      | _ => ticks w
                      end))
  /\ (state (self w) = HALF_OPEN \/ state (self w) = OPEN ->
      state (self w') = OPEN /\ half_open_calls (self w') = 0)
  /\ (state (self w) = CLOSED ->
      state (self w')
      = if failure_threshold (self w) <=? failure_count (self w) + 1
        then OPEN else CLOSED).
Proof.
  intros Hadm w'. subst w'. rewrite call_eq.
  destruct Hadm as [Hst | [[Hst Hq] | (Hst & Hmax & t & Hlft & Hel)]].
  - rewrite admission_not_open by (rewrite Hst; discriminate).
    open_world w. cbn [state_eqb andb fst snd]. py_run.
    split; [reflexivity |].
    split; [intros e' [= <-]; split; reflexivity |].
    split; [intros Hne e' [= <-]; exact Hne |].
    destruct (ft <=? fc + 1);
      (repeat (split; [reflexivity |]));
      (split; [intros [H | H]; discriminate H | reflexivity]).
  - rewrite admission_not_open by (rewrite Hst; discriminate).
    open_world w. cbn [state_eqb andb]. leb_false. cbn [fst snd]. py_run.
    split; [reflexivity |].
    split; [intros e' [= <-]; split; reflexivity |].
    split; [intros Hne e' [= <-]; exact Hne |].
    repeat (split; [reflexivity |]).
    split; [intros _; split; reflexivity | discriminate].
  - rewrite (admission_open_probe w t Hst Hlft Hel). cbv zeta. leb_false.
    open_world w. cbn [fst snd]. py_run.
    split; [reflexivity |].
    split; [intros e' [= <-]; split; reflexivity |].
    split; [intros Hne e' [= <-]; exact Hne |].
    repeat (split; [reflexivity |]).
    split; [intros _; split; reflexivity | discriminate].
Qed.

(** *** Any operation *)

(** No operation changes the configuration or the clock. *)
Lemma exec_config (op : Op V) (w : World) :
  config (self (exec op w)) = config (self w) /\ clock (exec op w) = clock w.
Proof.
  open_world w. destruct op as [[v | e] | | | | |]; try (split; reflexivity);
    destruct st; try destruct lft as [t |]; py_run; split_tests;
    split; reflexivity.
Qed.

Lemma exec_preserves_counters (op : Op V) (w : World) :
  counters_consistent (self w) -> counters_consistent (self (exec op w)).
Proof.
  open_world w. destruct op as [[v | e] | | | | |]; try exact (fun H => H);
    destruct st; try destruct lft as [t |]; py_run; split_tests; py_run;
    intros [Hc Hn]; split; intros; try congruence; try lia;
    try (apply Hc; congruence);
    try (assert (ft <= fc) by (apply Hn; congruence); lia).
Qed.

Lemma exec_preserves_quota (op : Op V) (w : World) :
  0 < half_open_max_calls (self w) ->
  quota_left (self w) -> quota_left (self (exec op w)).
Proof.
  open_world w. destruct op as [[v | e] | | | | |]; try exact (fun _ H => H);
    destruct st; try destruct lft as [t |]; py_run; split_tests; py_run;
    intros Hmax Hq; intros; try congruence; try lia;
    try (assert (0 <= hc < hm) by (apply Hq; congruence); lia).
Qed.

(** *** Runs *)

Lemma execs_cons (op : Op V) (ops : list (Op V)) (w : World) :
  execs (op :: ops) w = execs ops (exec op w).
Proof. reflexivity. Qed.

Lemma execs_app (ops1 ops2 : list (Op V)) (w : World) :
  execs (ops1 ++ ops2) w = execs ops2 (execs ops1 w).
Proof. apply fold_left_app. Qed.

(** A property of the instance that every operation keeps holds after
    every run. *)
Lemma execs_invariant (P : CircuitBreaker -> Prop) :
  (forall op w, P (self w) -> P (self (exec op w))) ->
  forall ops w, P (self w) -> P (self (execs ops w)).
Proof.
  intros Hstep ops. induction ops as [| op ops IH]; intros w Hw.
  - exact Hw.
  - rewrite execs_cons. apply IH, Hstep, Hw.
Qed.

Lemma execs_config (ops : list (Op V)) (w : World) :
  config (self (execs ops w)) = config (self w) /\ clock (execs ops w) = clock w.
Proof.
  revert w. induction ops as [| op ops IH]; intros w.
  - split; reflexivity.
  - rewrite execs_cons. destruct (IH (exec op w)) as [-> ->].
    apply exec_config.
Qed.

Lemma open_message_not_half_open (r m : Z) :
  CircuitBreakerError (open_message r) <> CircuitBreakerError (half_open_message m).
Proof.
  unfold CircuitBreakerError, circuit_breaker.open_message, half_open_message.
  simpl. discriminate.
Qed.

(** C5: after every run of [call], [reset] and the accessors on a freshly
    built breaker, a CLOSED breaker has [half_open_calls = 0] and an OPEN
    breaker has [failure_count >= failure_threshold]. *)
Theorem reachable_counters (s : settings.CircuitBreakerSettings)
    (clk : nat -> Z) (ops : list (Op V)) :
  let cb := self (execs ops (fresh s clk)) in
  (state cb = CLOSED -> half_open_calls cb = 0)
  /\ (state cb = OPEN -> failure_count cb >= failure_threshold cb).
Proof.
  assert (H : counters_consistent (self (execs ops (fresh s clk)))).
  { apply (execs_invariant counters_consistent).
    - intros op w. apply exec_preserves_counters.
    - split; [reflexivity | intros H; exfalso; apply H; reflexivity]. }
  destruct H as [Hc Hn]. split.
  - exact Hc.
  - intros Hopen. apply Z.le_ge, Hn. rewrite Hopen. discriminate.
Qed.

(** C10: with [half_open_max_calls >= 1], after every run of [call],
    [reset] and the accessors on a freshly built breaker, a HALF_OPEN
    breaker has [half_open_calls < half_open_max_calls]; so the admission
    check of the next call never raises the limit-exceeded error, and a
    call raises that error only if the operation itself does. *)
Theorem half_open_limit_unreachable (s : settings.CircuitBreakerSettings)
    (clk : nat -> Z) (ops : list (Op V)) :
  1 <= settings.half_open_max_calls s ->
  let w := execs ops (fresh s clk) in
  let limit := CircuitBreakerError (half_open_message (half_open_max_calls (self w))) in
  (state (self w) = HALF_OPEN ->
   half_open_calls (self w) < half_open_max_calls (self w))
  /\ fst (admission w) <> Raised limit
  /\ (forall func, fst (call func w) = Raised limit -> func = Raises limit).
Proof.
  intros Hmax w limit.
  assert (Hcfg : half_open_max_calls (self w) = settings.half_open_max_calls s).
  { destruct (execs_config ops (fresh s clk)) as [Hc _].
    unfold config in Hc. fold w in Hc. injection Hc as _ _ Hc. exact Hc. }
  assert (Hq : quota_left (self w)).
  { apply (execs_invariant
             (fun cb => half_open_max_calls cb = settings.half_open_max_calls s
                        /\ quota_left cb)).
    - intros op w0 [Hm Hq0]. split.
      + destruct (exec_config op w0) as [Hc _]. unfold config in Hc.
        injection Hc as _ _ Hc. congruence.
      + apply exec_preserves_quota; [lia | exact Hq0].
    - split; [reflexivity | intros H; discriminate H]. }
  assert (Hadm : fst (admission w) <> Raised limit).
  { destruct (state (self w)) eqn:Hst.
    - rewrite admission_not_open by congruence. rewrite Hst. simpl. discriminate.
    - destruct (last_failure_time (self w)) as [t |] eqn:Hlft.
      + destruct (Z.lt_ge_cases (clock w (ticks w) - t) (timeout (self w) * us_per_s))
          as [Hel | Hel].
        * rewrite (admission_open_wait w t Hst Hlft Hel). cbn [fst].
          intros H. unfold limit in H.
          apply (f_equal (fun r => match r with Raised x => x | Ok _ => limit end)) in H.
          exact (open_message_not_half_open _ _ H).
        * rewrite (admission_open_probe w t Hst Hlft Hel). cbv zeta.
          leb_false. discriminate.
      + rewrite (admission_open_no_failure w Hst Hlft). cbv zeta.
        leb_false. discriminate.
    - rewrite admission_not_open by congruence. rewrite Hst. simpl.
      specialize (Hq Hst). leb_false. discriminate. }
  split; [intros Hst; apply Hq, Hst |]. split; [exact Hadm |].
  intros func. rewrite call_eq.
  destruct (admission w) as [[[] | e] w'] eqn:Ha.
  - destruct func as [v | e]; simpl; intros [= H]. rewrite H. reflexivity.
  - cbn [fst] in *. intros H. exfalso. apply Hadm.
    injection H as H. rewrite H. reflexivity.
Qed.

(** *** Runs of failures and of successes *)

Lemma exec_failure_closed (e : PyExc) (w : World) :
  state (self w) = CLOSED ->
  exec (Call (Raises e)) w
  = mkWorld (after_failure (clock w (ticks w)) (self w))
            (clock w) (S (ticks w)) (S (invocations w)).
Proof.
  intros Hst. unfold circuit_breaker.exec.
  rewrite call_eq, admission_not_open by congruence.
  rewrite Hst. reflexivity.
Qed.

Lemma exec_success_admitted (v : V) (w : World) :
  state (self w) = CLOSED
  \/ (state (self w) = HALF_OPEN
      /\ half_open_calls (self w) < half_open_max_calls (self w)) ->
  exec (Call (Returns v)) w
  = mkWorld (after_success (self w)) (clock w) (ticks w) (S (invocations w)).
Proof.
  intros Hadm. unfold circuit_breaker.exec.
  rewrite call_eq, admission_not_open
    by (destruct Hadm as [H | [H _]]; rewrite H; discriminate).
  destruct Hadm as [-> | [-> Hq]]; cbn [state_eqb andb]; [| leb_false];
    reflexivity.
Qed.

(** A call that finds the breaker OPEN with the cool-down over runs as it
    would on the HALF_OPEN breaker the admission check makes of it. *)
Lemma exec_call_open_probe (func : Outcome V) (w : World) (t : Z) :
  state (self w) = OPEN ->
  last_failure_time (self w) = Some t ->
  timeout (self w) * us_per_s <= clock w (ticks w) - t ->
  0 < half_open_max_calls (self w) ->
  exec (Call func) w
  = exec (Call func)
         (mkWorld (set_half_open_calls 0 (set_state HALF_OPEN (self w)))
                  (clock w) (S (ticks w)) (invocations w)).
Proof.
  intros Hst Hlft Hel Hmax. unfold circuit_breaker.exec.
  rewrite !call_eq, (admission_open_probe w t Hst Hlft Hel).
  rewrite admission_not_open by (simpl; discriminate).
  open_world w. cbv zeta. cbn [state_eqb andb]. leb_false.
  reflexivity.
Qed.

(** Failures that stay below the threshold leave a CLOSED breaker CLOSED
    and are all counted. *)
Lemma failing_run_closed (es : list PyExc) :
  forall w : World,
    state (self w) = CLOSED ->
    failure_count (self w) + Z.of_nat (List.length es) < failure_threshold (self w) ->
    execs (failing es) w
    = mkWorld (mkCB (failure_threshold (self w)) (timeout (self w))
                    (half_open_max_calls (self w)) CLOSED
                    (failure_count (self w) + Z.of_nat (List.length es))
                    (match List.length es with
                     | O => last_failure_time (self w)
                     | S n => Some (clock w (ticks w + n))
                     end)
                    (half_open_calls (self w)))
              (clock w) (ticks w + List.length es) (invocations w + List.length es).
Proof.
  induction es as [| e es IH]; intros w Hst Hlt.
  - open_fields w. cbn [List.length failing map]. unfold circuit_breaker.execs.
    cbn [fold_left]. rewrite Z.add_0_r, !Nat.add_0_r. reflexivity.
  - cbn [failing map]. rewrite execs_cons, exec_failure_closed by exact Hst.
    cbn [List.length] in Hlt. rewrite Nat2Z.inj_succ in Hlt.
    open_fields w. unfold after_failure. cbn [state failure_threshold failure_count].
    leb_false. fold (failing (V:=V) es). rewrite IH.
    + py_run. cbn [List.length]. rewrite Nat2Z.inj_succ.
      f_equal; [| lia | lia]. f_equal; [lia |].
      destruct (List.length es) as [| n]; f_equal.
      * rewrite Nat.add_0_r. reflexivity.
      * f_equal. lia.
    + reflexivity.
    + py_run. lia.
Qed.

(** Successful trial calls that use up the quota close a HALF_OPEN breaker
    and clear its counters and its failure time. *)
Lemma trial_run_closes (vs : list V) :
  forall w : World,
    state (self w) = HALF_OPEN ->
    vs <> [] ->
    half_open_calls (self w) + Z.of_nat (List.length vs) = half_open_max_calls (self w) ->
    self (execs (succeeding vs) w)
    = mkCB (failure_threshold (self w)) (timeout (self w))
           (half_open_max_calls (self w)) CLOSED 0 None 0.
Proof.
  induction vs as [| v vs IH]; intros w Hst Hne Hlen; [congruence |].
  cbn [succeeding map]. rewrite execs_cons.
  cbn [List.length] in Hlen. rewrite Nat2Z.inj_succ in Hlen.
  rewrite exec_success_admitted by (right; split; [exact Hst | lia]).
  destruct w as [[ft tmo hm st fc lft hc] clk tk inv].
  cbn [self clock ticks invocations failure_threshold timeout
       half_open_max_calls state failure_count last_failure_time
       half_open_calls] in *.
  unfold after_success. cbn [state half_open_max_calls half_open_calls].
  rewrite Hst.
  destruct vs as [| v' vs].
  - cbn [List.length] in Hlen. leb_true. reflexivity.
  - cbn [List.length] in Hlen. rewrite Nat2Z.inj_succ in Hlen. leb_false.
    fold (succeeding (V:=V) (v' :: vs)). rewrite IH.
    + reflexivity.
    + reflexivity.
    + discriminate.
    + py_run. cbn [List.length]. rewrite Nat2Z.inj_succ. lia.
Qed.

Lemma failing_app (es1 es2 : list PyExc) :
  failing (V:=V) (es1 ++ es2) = (failing es1 ++ failing es2)%list.
Proof. apply map_app. Qed.

(** Failures that reach the threshold open a CLOSED breaker at the last of
    them. *)
Lemma failing_run_opens (es : list PyExc) (e : PyExc) (w : World) :
  state (self w) = CLOSED ->
  failure_count (self w) + Z.of_nat (List.length es) + 1 = failure_threshold (self w) ->
  execs (failing (es ++ [e])) w
  = mkWorld (mkCB (failure_threshold (self w)) (timeout (self w))
                  (half_open_max_calls (self w)) OPEN
                  (failure_threshold (self w))
                  (Some (clock w (ticks w + List.length es)))
                  (half_open_calls (self w)))
            (clock w) (S (ticks w + List.length es))
            (S (invocations w + List.length es)).
Proof.
  intros Hst Hlen.
  rewrite failing_app, execs_app, (failing_run_closed es w) by (trivial; lia).
  cbn [failing map]. unfold circuit_breaker.execs at 1. cbn [fold_left].
  rewrite exec_failure_closed by reflexivity.
  open_fields w. py_run. leb_true. reflexivity.
Qed.

(** C2: on a CLOSED breaker with [failure_count = 0], [failure_threshold - 1]
    failing calls in a row leave it CLOSED (with that many failures counted),
    one more failing call opens it, and one successful call instead puts
    [failure_count] back to 0, after which another [failure_threshold - 1]
    failures still leave it CLOSED: only failures in a row count. *)
Theorem consecutive_failures (w : World) (es es' : list PyExc) (e : PyExc) (v : V) :
  state (self w) = CLOSED ->
  failure_count (self w) = 0 ->
  Z.of_nat (List.length es) = failure_threshold (self w) - 1 ->
  Z.of_nat (List.length es') = failure_threshold (self w) - 1 ->
  let w1 := execs (failing es) w in
  let w2 := exec (Call (Returns v)) w1 in
  state (self w1) = CLOSED
  /\ failure_count (self w1) = failure_threshold (self w) - 1
  /\ state (self (exec (Call (Raises e)) w1)) = OPEN
  /\ state (self w2) = CLOSED
  /\ failure_count (self w2) = 0
  /\ state (self (execs (failing es') w2)) = CLOSED.
Proof.
  intros Hst Hfc Hlen Hlen' w1 w2.
  assert (H1 : state (self w1) = CLOSED
               /\ failure_count (self w1) = failure_threshold (self w) - 1
               /\ failure_threshold (self w1) = failure_threshold (self w)).
  { subst w1. rewrite failing_run_closed by (trivial; lia).
    cbn [self state failure_count failure_threshold]. repeat split. lia. }
  destruct H1 as (Hst1 & Hfc1 & Hft1).
  assert (H2 : state (self w2) = CLOSED /\ failure_count (self w2) = 0
               /\ failure_threshold (self w2) = failure_threshold (self w)).
  { subst w2. rewrite exec_success_admitted by (left; exact Hst1).
    cbn [self]. unfold after_success. rewrite Hst1.
    destruct (0 <? failure_count (self w1)) eqn:Hpos.
    - cbn. repeat split; assumption.
    - apply Z.ltb_ge in Hpos. repeat split; trivial. lia. }
  destruct H2 as (Hst2 & Hfc2 & Hft2).
  repeat (split; [assumption |]). split; [| split; [assumption |]; split; [assumption |]].
  - rewrite exec_failure_closed by exact Hst1. cbn [self].
    unfold after_failure. rewrite Hst1, Hft1, Hfc1. leb_true. reflexivity.
  - rewrite failing_run_closed by (trivial; lia). reflexivity.
Qed.

(** C6: a freshly initialised breaker that takes [failure_threshold] failing
    calls in a row is OPEN; when the next call arrives with the cool-down
    over, it is admitted as a HALF_OPEN trial, and after
    [half_open_max_calls] successful calls in a row the breaker is again
    exactly as [__init__] made it: CLOSED, [failure_count = 0],
    [half_open_calls = 0], [last_failure_time] cleared. *)
Theorem full_cycle (s : settings.CircuitBreakerSettings) (w : World)
    (es : list PyExc) (vs : list V) :
  self w = __init__ s ->
  1 <= settings.failure_threshold s ->
  1 <= settings.half_open_max_calls s ->
  Z.of_nat (List.length es) = settings.failure_threshold s ->
  Z.of_nat (List.length vs) = settings.half_open_max_calls s ->
  settings.timeout_seconds s * us_per_s
  <= clock w (ticks w + List.length es)
     - clock w (ticks w + List.length es - 1) ->
  let w1 := execs (failing es) w in
  state (self w1) = OPEN
  /\ state (self (snd (admission w1))) = HALF_OPEN
  /\ self (execs (succeeding vs) w1) = __init__ s.
Proof.
  intros Hinit Hft Hhm Hes Hvs Hclk w1.
  destruct (exists_last (l:=es)) as (es0 & e & ->).
  { intros ->. cbn in Hes. lia. }
  rewrite length_app in Hes, Hclk. cbn [List.length] in Hes, Hclk.
  replace (ticks w + (List.length es0 + 1) - 1)%nat
    with (ticks w + List.length es0)%nat in Hclk by lia.
  replace (ticks w + (List.length es0 + 1))%nat
    with (S (ticks w + List.length es0)) in Hclk by lia.
  assert (Hw1 : w1 = mkWorld (mkCB (settings.failure_threshold s)
                                   (settings.timeout_seconds s)
                                   (settings.half_open_max_calls s) OPEN
                                   (settings.failure_threshold s)
                                   (Some (clock w (ticks w + List.length es0))) 0)
                             (clock w) (S (ticks w + List.length es0))
                             (S (invocations w + List.length es0))).
  { subst w1. rewrite failing_run_opens; rewrite Hinit; cbn; trivial. lia. }
  clearbody w1. subst w1.
  split; [reflexivity |]. split.
  - rewrite (admission_open_probe _ (clock w (ticks w + List.length es0)))
      by (cbn; trivial).
    cbn. leb_false. reflexivity.
  - destruct vs as [| v vs]; [cbn in Hvs; lia |].
    change (succeeding (v :: vs)) with (Call (Returns v) :: succeeding vs).
    rewrite execs_cons.
    rewrite (exec_call_open_probe _ _ (clock w (ticks w + List.length es0)))
      by (cbn; trivial; lia).
    rewrite <- execs_cons.
    change (Call (Returns v) :: succeeding vs) with (succeeding (v :: vs)).
    rewrite trial_run_closes.
    + reflexivity.
    + reflexivity.
    + discriminate.
    + cbn [self half_open_calls half_open_max_calls set_half_open_calls set_state].
      lia.
Qed.

(** *** When the breaker is OPEN *)

(** [within_cooldown] decides [cooling]: both say that the clock, read now,
    shows less than [timeout] seconds since [last_failure_time]. *)
Lemma within_cooldown_cooling (w : World) :
  within_cooldown w = true <-> cooling w.
Proof.
  unfold within_cooldown, cooling.
  destruct (last_failure_time (self w)) as [t |].
  - rewrite Z.ltb_lt. split.
    + intros H. exists t. split; [reflexivity | exact H].
    + intros (t' & [= <-] & H). exact H.
  - split; [discriminate | intros (t' & H & _); discriminate H].
Qed.

(** After one operation the breaker is OPEN exactly when the operation
    tripped it, or it was OPEN and the operation was an accessor or a call
    within the cool-down. *)
Lemma open_after_exec (op : Op V) (w : World) :
  state (self (exec op w)) = OPEN
  <-> trips w op = true \/ (state (self w) = OPEN /\ quiet w op = true).
Proof.
  open_world w.
  destruct op as [[v | e] | | | | |]; destruct st; try destruct lft as [t |];
    unfold circuit_breaker.trips, circuit_breaker.quiet, within_cooldown;
    py_run; split_tests; py_run;
    (split; [intros Hopen | intros [Htrip | [Hopen Hquiet]]]);
    try discriminate; try lia; auto.
Qed.

Lemma all_quiet_app (ops1 ops2 : list (Op V)) (w : World) :
  all_quiet (ops1 ++ ops2) w = all_quiet ops1 w && all_quiet ops2 (execs ops1 w).
Proof.
  revert w. induction ops1 as [| op ops1 IH]; intros w.
  - reflexivity.
  - cbn [app circuit_breaker.all_quiet]. rewrite IH, execs_cons, andb_assoc.
    reflexivity.
Qed.

(** Accessors and calls within the cool-down keep an OPEN breaker OPEN. *)
Lemma all_quiet_stays_open (ops : list (Op V)) :
  forall w, state (self w) = OPEN -> all_quiet ops w = true ->
            state (self (execs ops w)) = OPEN.
Proof.
  induction ops as [| op ops IH]; intros w Hst Hq.
  - exact Hst.
  - cbn [circuit_breaker.all_quiet] in Hq. apply andb_prop in Hq as [Hq1 Hq2].
    rewrite execs_cons. apply IH; [| exact Hq2].
    apply open_after_exec. right. split; assumption.
Qed.

(** C4, amended: after every run of [call], [reset] and the accessors on a
    freshly built breaker, the state is OPEN exactly when some call of the
    run tripped the breaker (its operation failed while CLOSED with
    [failure_count] reaching [failure_threshold], or failed as a trial,
    made while HALF_OPEN with trial calls left or while OPEN with the
    cool-down over) and everything after that call was an accessor or a
    call that arrived less than [timeout] seconds after
    [last_failure_time]: the breaker leaves OPEN at a [reset] or at the
    first call that arrives with the cool-down over, not by the passing of
    time. *)
Theorem open_iff_tripped_and_held (s : settings.CircuitBreakerSettings)
    (clk : nat -> Z) (ops : list (Op V)) :
  state (self (execs ops (fresh s clk))) = OPEN
  <-> tripped_and_held V format_1f isoformat ops (fresh s clk).
Proof.
  unfold tripped_and_held. split.
  - induction ops as [| op ops IH] using rev_ind; intros Hopen.
    + discriminate Hopen.
    + rewrite execs_app in Hopen.
      change (execs [op] (execs ops (fresh s clk)))
        with (exec op (execs ops (fresh s clk))) in Hopen.
      apply open_after_exec in Hopen as [Htrip | [Hopen Hquiet]].
      * exists ops, op, []. repeat split. exact Htrip.
      * destruct (IH Hopen) as (pre & c & post & -> & Htrip & Hheld).
        exists pre, c, (post ++ [op])%list. split; [| split].
        -- rewrite <- app_assoc. reflexivity.
        -- exact Htrip.
        -- rewrite all_quiet_app, Hheld. cbn [andb circuit_breaker.all_quiet].
           rewrite andb_true_r.
           rewrite execs_app, execs_cons in Hquiet. exact Hquiet.
  - intros (pre & c & post & -> & Htrip & Hheld).
    rewrite execs_app, execs_cons.
    apply all_quiet_stays_open; [| exact Hheld].
    apply open_after_exec. left. exact Htrip.
Qed.

End Breaker.

(** *** The statements at work on concrete breakers *)


(** C2 at work, with the default threshold of 5. *)
Lemma consecutive_failures_witness :
  let four := repeat service_unavailable 4 in
  let w1 := execs nat tenths tenths (failing four) (fresh settings.default (regular_clock 1)) in
  let w2 := exec nat tenths tenths (Call (Returns 7%nat)) w1 in
  state (self w1) = CLOSED
  /\ failure_count (self w1) = 4
  /\ state (self (exec nat tenths tenths (Call (Raises service_unavailable)) w1)) = OPEN
  /\ state (self w2) = CLOSED
  /\ failure_count (self w2) = 0
  /\ state (self (execs nat tenths tenths (failing four) w2)) = CLOSED.
Proof.
  exact (consecutive_failures nat tenths tenths
           (fresh settings.default (regular_clock 1))
           (repeat service_unavailable 4) (repeat service_unavailable 4)
           service_unavailable 7%nat eq_refl eq_refl eq_refl eq_refl).
Defined.

(** C3 at work on three breakers with the default settings: a fresh one,
    one on trial with a trial call left, and one that is OPEN when the call
    arrives exactly 60 s after the failure. *)
Lemma admitted_failure_reraised_witness :
  (fst (call nat tenths (Raises service_unavailable)
             (fresh settings.default (regular_clock 1)))
   = Raised service_unavailable
   /\ failure_count
        (self (snd (call nat tenths (Raises service_unavailable)
                         (fresh settings.default (regular_clock 1))))) = 1)
  /\ (fst (call nat tenths (Raises service_unavailable) (on_trial 70))
      = Raised service_unavailable
      /\ self (snd (call nat tenths (Raises service_unavailable) (on_trial 70)))
         = mkCB 5 60 3 OPEN 6 (Some 70000000) 0)
  /\ (fst (call nat tenths (Raises service_unavailable) (opened_at_0 60))
      = Raised service_unavailable
      /\ self (snd (call nat tenths (Raises service_unavailable) (opened_at_0 60)))
         = mkCB 5 60 3 OPEN 6 (Some 61000000) 0).
Proof.
  pose proof (admitted_failure_reraised nat tenths
                (fresh settings.default (regular_clock 1))
                service_unavailable (or_introl eq_refl)) as H1.
  pose proof (admitted_failure_reraised nat tenths (on_trial 70)
                service_unavailable
                (or_intror (or_introl (conj eq_refl eq_refl)))) as H2.
  assert (Hover : exists t, last_failure_time (self (opened_at_0 60)) = Some t
                            /\ circuit_breaker.timeout (self (opened_at_0 60)) * us_per_s
                               <= clock (opened_at_0 60) (ticks (opened_at_0 60)) - t).
  { exists 0. split; [reflexivity | vm_compute; discriminate]. }
  pose proof (admitted_failure_reraised nat tenths (opened_at_0 60)
                service_unavailable
                (or_intror (or_intror (conj eq_refl (conj eq_refl Hover))))) as H3.
  cbv zeta in H1, H2, H3.
  destruct H1 as (H1r & _ & _ & _ & H1c & _).
  destruct H2 as (H2r & _). destruct H3 as (H3r & _).
  split; [split; [exact H1r | exact H1c] |].
  split; (split; [assumption | reflexivity]).
Defined.

(** C4: with the default settings, five failures 100 s apart open the
    breaker; when [get_state] is called the clock shows 500 s, 100 s after
    the last failure and past the 60 s cool-down, and the state is still
    OPEN. *)
Lemma open_after_cooldown_counterexample :
  ~ open_iff_cooling nat tenths tenths
      (failing (repeat service_unavailable 5) ++ [GetState])%list
      (fresh settings.default (regular_clock 100)).
Proof.
  intros [H _].
  destruct H as [_ (t & Ht & Hlt)].
  - vm_compute. reflexivity.
  - vm_compute in Ht. injection Ht as <-.
    vm_compute in Hlt. discriminate Hlt.
Defined.

(** C6 at work, with the default settings and calls 100 s apart. *)
Lemma full_cycle_witness :
  let w1 := execs nat tenths tenths (failing (repeat service_unavailable 5))
                  (fresh settings.default (regular_clock 100)) in
  state (self w1) = OPEN
  /\ state (self (snd (admission tenths w1))) = HALF_OPEN
  /\ self (execs nat tenths tenths (succeeding [1; 2; 3]%nat) w1)
     = __init__ settings.default.
Proof.
  apply (full_cycle nat tenths tenths settings.default
           (fresh settings.default (regular_clock 100))
           (repeat service_unavailable 5) [1; 2; 3]%nat);
    try reflexivity; vm_compute; discriminate.
Defined.

(** C10 at work: after five failures and one successful trial the breaker
    is HALF_OPEN with one of its three trial calls used. *)
Lemma half_open_limit_unreachable_witness :
  let w := execs nat tenths tenths
                 (failing (repeat service_unavailable 5) ++ [Call (Returns 7%nat)])%list
                 (fresh settings.default (regular_clock 100)) in
  let limit := CircuitBreakerError (half_open_message (half_open_max_calls (self w))) in
  (state (self w) = HALF_OPEN ->
   half_open_calls (self w) < half_open_max_calls (self w))
  /\ fst (admission tenths w) <> Raised limit
  /\ (forall func, fst (call nat tenths func w) = Raised limit -> func = Raises limit).
Proof.
  apply (half_open_limit_unreachable nat tenths tenths settings.default
           (regular_clock 100)
           (failing (repeat service_unavailable 5) ++ [Call (Returns 7%nat)])%list).
  vm_compute. discriminate.
Defined.

End CircuitBreakerSpec.

(* ===================================================================== *)
(** * Properties of the health probes                                     *)
(* ===================================================================== *)

Module HealthProbesSpec.

Import health_probes.

Ltac hp_run :=
  cbv beta iota zeta delta
    [liveness readiness startup startup_checks _check_elasticsearch
     _check_lmstudio reset_startup probe
     Elasticsearch cluster_health getitem client_get datetime_utcnow
     set_startup_complete attr es_now http_now models_url
     bind ret raise try_except gets modify when
     self es_service es_calls http_service http_calls utc_clock utc_ticks
     hp_settings timeout startup_complete
     negb andb fst snd].

Ltac open_hp w :=
  destruct w as [[stg tmo done] ess esn https httpn utc utcn].

Section Probes.

Variable isoformat : Z -> string.

Local Abbreviation liveness := (liveness isoformat).
Local Abbreviation readiness := (readiness isoformat).
Local Abbreviation startup := (startup isoformat).
Local Abbreviation probes := (probes isoformat).

(** *** The two dependency checks *)

(** The search-engine check always returns a boolean, after building one
    client. *)
Lemma check_elasticsearch_total (w : World) :
  exists b,
    _check_elasticsearch w
    = (Ok b, mkWorld (self w) (es_service w) (S (es_calls w)) (http_service w)
                     (http_calls w) (utc_clock w) (utc_ticks w)).
Proof.
  open_hp w. hp_run.
  destruct (ess esn) as [e | [e | health]].
  - exists false. reflexivity.
  - exists false. reflexivity.
  - destruct (dict_get "status" health) as [status |].
    + eexists. reflexivity.
    + exists false. reflexivity.
Qed.

(** The LM check always returns a boolean, after one request. *)
Lemma check_lmstudio_total (w : World) :
  exists b,
    _check_lmstudio w
    = (Ok b, mkWorld (self w) (es_service w) (es_calls w) (http_service w)
                     (S (http_calls w)) (utc_clock w) (utc_ticks w)).
Proof.
  open_hp w. hp_run.
  match goal with |- context [https ?u httpn] => destruct (https u httpn) as [e | code] end.
  - exists false. destruct (isinstance e TimeoutException_classes); reflexivity.
  - eexists. reflexivity.
Qed.

(** A failed dependency check is a [False], whatever the failure. *)
Lemma check_elasticsearch_failures (w : World) :
  (forall e, es_now w = ConnectRaises e -> fst (_check_elasticsearch w) = Ok false)
  /\ (forall e, es_now w = Connected (HealthRaises e) ->
                fst (_check_elasticsearch w) = Ok false)
  /\ (forall health,
        es_now w = Connected (HealthReturns health) ->
        fst (_check_elasticsearch w)
        = Ok (match dict_get "status" health with
              | Some status => in_strings status ["green"; "yellow"]
              | None => false
              end)).
Proof.
  open_hp w. hp_run. repeat split; intros x ->; try reflexivity.
  destruct (dict_get "status" x); reflexivity.
Qed.

Lemma check_lmstudio_failures (w : World) :
  (forall e, http_now w = GetRaises e -> fst (_check_lmstudio w) = Ok false)
  /\ (forall code, http_now w = Response code ->
                   fst (_check_lmstudio w) = Ok (code =? 200)).
Proof.
  open_hp w. hp_run. split; intros x ->.
  - destruct (isinstance x TimeoutException_classes); reflexivity.
  - reflexivity.
Qed.

(** *** The probes *)

Lemma liveness_eq (w : World) :
  liveness w
  = (Ok (healthy_result isoformat "liveness" (utc_clock w (utc_ticks w))),
     mkWorld (self w) (es_service w) (es_calls w) (http_service w)
             (http_calls w) (utc_clock w) (S (utc_ticks w))).
Proof. reflexivity. Qed.

Lemma readiness_returns (w : World) :
  exists d w', readiness w = (Ok d, w').
Proof.
  destruct (check_elasticsearch_total w) as [es Hes].
  destruct (check_lmstudio_total
              (mkWorld (self w) (es_service w) (S (es_calls w)) (http_service w)
                       (http_calls w) (utc_clock w) (utc_ticks w))) as [lm Hlm].
  eexists. eexists.
  unfold health_probes.readiness, bind. rewrite Hes, Hlm. reflexivity.
Qed.

(** C7: [readiness] runs both checks and reports "healthy" overall exactly
    when both are healthy; its [checks] map gives the status of each
    dependency, each marked [required: True]. *)
Theorem readiness_is_conjunction (w : World) :
  exists (es lm : bool) (d : PyDict) (w' : World),
    fst (_check_elasticsearch w) = Ok es
    /\ fst (_check_lmstudio (snd (_check_elasticsearch w))) = Ok lm
    /\ readiness w = (Ok d, w')
    /\ dict_get "status" d = Some (status_of (es && lm))
    /\ (dict_get "status" d = Some (VStr "healthy") <-> es = true /\ lm = true)
    /\ (dict_get "status" d = Some (VStr "unhealthy") <-> es = false \/ lm = false)
    /\ dict_get "probe" d = Some (VStr "readiness")
    /\ dict_get "checks" d
       = Some (VDict [ ("elasticsearch", check_entry es);
                       ("lmstudio", check_entry lm) ])
    /\ dict_get2 "checks" "elasticsearch" d = Some (check_entry es)
    /\ dict_get2 "checks" "lmstudio" d = Some (check_entry lm).
Proof.
  destruct (check_elasticsearch_total w) as [es Hes].
  destruct (check_lmstudio_total
              (mkWorld (self w) (es_service w) (S (es_calls w)) (http_service w)
                       (http_calls w) (utc_clock w) (utc_ticks w))) as [lm Hlm].
  exists es, lm. eexists. eexists.
  split; [rewrite Hes; reflexivity |].
  split; [rewrite Hes; cbn [snd]; rewrite Hlm; reflexivity |].
  split.
  { unfold health_probes.readiness, bind. rewrite Hes, Hlm. reflexivity. }
  split; [reflexivity |].
  destruct es, lm; cbn; repeat split; intros; try discriminate; try reflexivity;
    auto; intuition discriminate.
Qed.

(** The four rows of the table, on concrete services. *)
Example readiness_truth_table :
  let status es http := dict_get "status"
                          match fst (readiness (steady es http)) with
                          | Ok d => d
                          | Raised _ => []
                          end in
  status (cluster "green") (Response 200) = Some (VStr "healthy")
  /\ status (cluster "red") (Response 200) = Some (VStr "unhealthy")
  /\ status (cluster "yellow") (Response 500) = Some (VStr "unhealthy")
  /\ status (cluster "red") (GetRaises (mkExc "ConnectError" "Connection refused"))
     = Some (VStr "unhealthy").
Proof. repeat split. Qed.

Lemma readiness_self (w : World) : self (snd (readiness w)) = self w.
Proof.
  destruct (check_elasticsearch_total w) as [es Hes].
  destruct (check_lmstudio_total
              (mkWorld (self w) (es_service w) (S (es_calls w)) (http_service w)
                       (http_calls w) (utc_clock w) (utc_ticks w))) as [lm Hlm].
  unfold health_probes.readiness, bind. rewrite Hes, Hlm. reflexivity.
Qed.

(** Once the flag is set, [startup] answers from the flag alone. *)
Lemma startup_latched (w : World) :
  startup_complete (self w) = true ->
  startup w
  = (Ok (healthy_result isoformat "startup" (utc_clock w (utc_ticks w))),
     mkWorld (self w) (es_service w) (es_calls w) (http_service w)
             (http_calls w) (utc_clock w) (S (utc_ticks w))).
Proof.
  intros Hdone. open_hp w. cbn in Hdone. subst done. reflexivity.
Qed.

(** With the flag unset, [startup] runs the search-engine check once and
    sets the flag exactly when the check passes. *)
Lemma startup_unlatched (w : World) (ok : bool) :
  startup_complete (self w) = false ->
  fst (_check_elasticsearch w) = Ok ok ->
  startup w
  = (Ok (if ok then healthy_result isoformat "startup" (utc_clock w (utc_ticks w))
         else [ ("status", VStr "unhealthy");
                ("timestamp", VStr (isoformat (utc_clock w (utc_ticks w))));
                ("probe", VStr "startup");
                ("error", VStr "Elasticsearch not accessible") ]),
     mkWorld (mkHP (hp_settings (self w)) (timeout (self w)) ok)
             (es_service w) (S (es_calls w)) (http_service w)
             (http_calls w) (utc_clock w) (S (utc_ticks w))).
Proof.
  intros Hdone Hcheck.
  destruct (check_elasticsearch_total w) as [b Hb].
  rewrite Hb in Hcheck. cbn [fst] in Hcheck. injection Hcheck as ->.
  unfold health_probes.startup, startup_checks, bind, try_except, attr, gets.
  rewrite Hdone. cbn [negb]. rewrite Hb.
  open_hp w. cbn in Hdone. subst done. destruct ok; reflexivity.
Qed.

Lemma probe_keeps_latch (p : Probe) (w : World) :
  startup_complete (self w) = true ->
  startup_complete (self (snd (probe isoformat p w))) = true.
Proof.
  intros Hdone. destruct p; cbn [probe].
  - exact Hdone.
  - rewrite readiness_self. exact Hdone.
  - rewrite startup_latched by exact Hdone. exact Hdone.
Qed.

Lemma probes_keep_latch (ps : list Probe) :
  forall w, startup_complete (self w) = true ->
            startup_complete (self (probes ps w)) = true.
Proof.
  induction ps as [| p ps IH]; intros w Hdone.
  - exact Hdone.
  - apply (IH (snd (probe isoformat p w))), probe_keeps_latch, Hdone.
Qed.

(** C8: with the flag unset, a [startup] whose search-engine check passes
    returns healthy and sets [startup_complete]; the flag then stays set
    through every later [liveness], [readiness] and [startup], and every
    later [startup] returns healthy without building a search-engine client
    (after two [startup] calls in a row the check has run once).  A
    [startup] whose check fails returns an unhealthy result with an error
    message and leaves the flag unset, so the next [startup] runs the check
    again. *)
Theorem startup_latch (w : World) :
  startup_complete (self w) = false ->
  (fst (_check_elasticsearch w) = Ok true ->
     let w1 := snd (startup w) in
     fst (startup w)
     = Ok (healthy_result isoformat "startup" (utc_clock w (utc_ticks w)))
     /\ startup_complete (self w1) = true
     /\ es_calls w1 = S (es_calls w)
     /\ es_calls (snd (startup w1)) = S (es_calls w)
     /\ (forall ps,
           let w2 := probes ps w1 in
           startup_complete (self w2) = true
           /\ fst (startup w2)
              = Ok (healthy_result isoformat "startup" (utc_clock w2 (utc_ticks w2)))
           /\ es_calls (snd (startup w2)) = es_calls w2))
  /\ (fst (_check_elasticsearch w) = Ok false ->
     let w1 := snd (startup w) in
     fst (startup w)
     = Ok [ ("status", VStr "unhealthy");
            ("timestamp", VStr (isoformat (utc_clock w (utc_ticks w))));
            ("probe", VStr "startup");
            ("error", VStr "Elasticsearch not accessible") ]
     /\ startup_complete (self w1) = false
     /\ es_calls w1 = S (es_calls w)
     /\ es_calls (snd (startup w1)) = S (S (es_calls w))).
Proof.
  intros Hdone. split; intros Hcheck w1; subst w1;
    rewrite (startup_unlatched w _ Hdone Hcheck); cbn [fst snd].
  - split; [reflexivity |]. split; [reflexivity |]. split; [reflexivity |].
    split; [rewrite startup_latched by reflexivity; reflexivity |].
    intros ps. cbv zeta.
    match goal with
    | |- startup_complete (self ?x) = true /\ _ => set (w2 := x)
    end.
    assert (Hlatch : startup_complete (self w2) = true)
      by (apply probes_keep_latch; reflexivity).
    split; [exact Hlatch |].
    rewrite (startup_latched w2 Hlatch). split; reflexivity.
  - split; [reflexivity |]. split; [reflexivity |]. split; [reflexivity |].
    match goal with
    | |- es_calls (snd (startup ?w1)) = _ =>
        destruct (check_elasticsearch_total w1) as [b Hb];
        rewrite (startup_unlatched w1 b eq_refl) by (rewrite Hb; reflexivity)
    end.
    reflexivity.
Qed.

Lemma readiness_result (w : World) (es lm : bool) :
  fst (_check_elasticsearch w) = Ok es ->
  fst (_check_lmstudio w) = Ok lm ->
  readiness w
  = (Ok [ ("status", VStr (if es && lm then "healthy" else "unhealthy"));
          ("timestamp", VStr (isoformat (utc_clock w (utc_ticks w))));
          ("probe", VStr "readiness");
          ("checks",
           VDict [ ("elasticsearch",
                    VDict [ ("status", VStr (if es then "healthy" else "unhealthy"));
                            ("required", VBool true) ]);
                   ("lmstudio",
                    VDict [ ("status", VStr (if lm then "healthy" else "unhealthy"));
                            ("required", VBool true) ]) ]) ],
     mkWorld (self w) (es_service w) (S (es_calls w)) (http_service w)
             (S (http_calls w)) (utc_clock w) (S (utc_ticks w))).
Proof.
  destruct (check_elasticsearch_total w) as [es' Hes].
  destruct (check_lmstudio_total w) as [lm' Hlm].
  destruct (check_lmstudio_total
              (mkWorld (self w) (es_service w) (S (es_calls w)) (http_service w)
                       (http_calls w) (utc_clock w) (utc_ticks w))) as [lm2 Hlm2].
  assert (Hsame : lm2 = lm').
  { revert Hlm Hlm2. open_hp w. hp_run.
    match goal with
    | |- context [https ?u httpn] => destruct (https u httpn) as [e | code]
    end.
    - destruct (isinstance e TimeoutException_classes); congruence.
    - congruence. }
  subst lm2. rewrite Hes, Hlm. cbn [fst]. intros [= <-] [= <-].
  unfold health_probes.readiness, bind. rewrite Hes, Hlm2.
  destruct es', lm'; reflexivity.
Qed.

(** C9: whatever the search engine and the LM endpoint do (raise on
    connection or on the request, time out, answer with another status code
    than 200 or with a cluster status other than green or yellow), the two
    checks return a boolean, [False] in each of these cases, and none of
    [liveness], [readiness] and [startup] raises: each returns its
    dictionary, in which the failure is data.  [readiness] gives "unhealthy"
    overall and for each dependency whose check failed; [startup], while
    the flag is unset and the search-engine check fails, gives "unhealthy"
    with the error text; [liveness] gives "healthy" whatever the
    dependencies do. *)
Theorem probes_never_raise (w : World) :
  exists es lm : bool,
    (exists w', _check_elasticsearch w = (Ok es, w'))
    /\ (exists w', _check_lmstudio w = (Ok lm, w'))
    /\ (forall e, es_now w = ConnectRaises e -> es = false)
    /\ (forall e, es_now w = Connected (HealthRaises e) -> es = false)
    /\ (forall health status,
          es_now w = Connected (HealthReturns health) ->
          dict_get "status" health = Some status ->
          in_strings status ["green"; "yellow"] = false ->
          es = false)
    /\ (forall e, http_now w = GetRaises e -> lm = false)
    /\ (forall code, http_now w = Response code -> code <> 200 -> lm = false)
    /\ (exists w',
          liveness w
          = (Ok [ ("status", VStr "healthy");
                  ("timestamp", VStr (isoformat (utc_clock w (utc_ticks w))));
                  ("probe", VStr "liveness") ], w'))
    /\ (exists w',
          readiness w
          = (Ok [ ("status", VStr (if es && lm then "healthy" else "unhealthy"));
                  ("timestamp", VStr (isoformat (utc_clock w (utc_ticks w))));
                  ("probe", VStr "readiness");
                  ("checks",
                   VDict [ ("elasticsearch",
                            VDict [ ("status",
                                     VStr (if es then "healthy" else "unhealthy"));
                                    ("required", VBool true) ]);
                           ("lmstudio",
                            VDict [ ("status",
                                     VStr (if lm then "healthy" else "unhealthy"));
                                    ("required", VBool true) ]) ]) ], w'))
    /\ (exists w',
          startup w
          = (Ok (if startup_complete (self w) || es then
                   [ ("status", VStr "healthy");
                     ("timestamp", VStr (isoformat (utc_clock w (utc_ticks w))));
                     ("probe", VStr "startup") ]
                 else
                   [ ("status", VStr "unhealthy");
                     ("timestamp", VStr (isoformat (utc_clock w (utc_ticks w))));
                     ("probe", VStr "startup");
                     ("error", VStr "Elasticsearch not accessible") ]), w')).
Proof.
  destruct (check_elasticsearch_failures w) as (Hes1 & Hes2 & Hes3).
  destruct (check_lmstudio_failures w) as (Hlm1 & Hlm2).
  destruct (check_elasticsearch_total w) as [es Hes].
  destruct (check_lmstudio_total w) as [lm Hlm].
  assert (Hes' : fst (_check_elasticsearch w) = Ok es) by (rewrite Hes; reflexivity).
  assert (Hlm' : fst (_check_lmstudio w) = Ok lm) by (rewrite Hlm; reflexivity).
  exists es, lm.
  split; [eexists; exact Hes |]. split; [eexists; exact Hlm |].
  split; [intros e Hnow; specialize (Hes1 e Hnow); congruence |].
  split; [intros e Hnow; specialize (Hes2 e Hnow); congruence |].
  split.
  { intros health status Hnow Hstatus Hin.
    specialize (Hes3 health Hnow). rewrite Hstatus, Hin in Hes3. congruence. }
  split; [intros e Hnow; specialize (Hlm1 e Hnow); congruence |].
  split.
  { intros code Hnow Hcode. specialize (Hlm2 code Hnow).
    apply Z.eqb_neq in Hcode. rewrite Hcode in Hlm2. congruence. }
  split; [eexists; apply liveness_eq |].
  split; [eexists; apply (readiness_result w es lm Hes' Hlm') |].
  destruct (startup_complete (self w)) eqn:Hdone.
  - eexists. apply startup_latched, Hdone.
  - eexists. cbn [orb].
    rewrite (startup_unlatched w es Hdone Hes'). destruct es; reflexivity.
Qed.

End Probes.

(** *** The statements at work on concrete services *)

(** C8 at work: against a green cluster two [startup] calls build one
    client; against a cluster that refuses the first connection the first
    [startup] is unhealthy and the second runs the check again. *)
Lemma startup_latch_witness :
  es_calls (snd (startup epoch_seconds
                   (snd (startup epoch_seconds
                           (steady (cluster "green") (Response 200)))))) = 1%nat
  /\ startup_complete (self (snd (startup epoch_seconds late_start))) = false
  /\ es_calls (snd (startup epoch_seconds
                      (snd (startup epoch_seconds late_start)))) = 2%nat.
Proof.
  pose proof (proj1 (startup_latch epoch_seconds
                       (steady (cluster "green") (Response 200)) eq_refl)
                    eq_refl) as Hgood.
  pose proof (proj2 (startup_latch epoch_seconds late_start eq_refl) eq_refl)
    as Hbad.
  cbv zeta in Hgood, Hbad.
  destruct Hgood as (_ & _ & _ & Htwice & _).
  destruct Hbad as (_ & Hflag & _ & Hagain).
  split; [exact Htwice |]. split; [exact Hflag | exact Hagain].
Defined.

(** C9 at work: a refused connection and a timed-out request. *)
Lemma probes_never_raise_witness :
  let w := steady (ConnectRaises (mkExc "ConnectionError" "Connection refused"))
                  (GetRaises (mkExc "ReadTimeout" "timed out")) in
  fst (_check_elasticsearch w) = Ok false
  /\ fst (_check_lmstudio w) = Ok false
  /\ exists d w',
       readiness epoch_seconds w = (Ok d, w')
       /\ dict_get "status" d = Some (VStr "unhealthy")
       /\ dict_get2 "checks" "elasticsearch" d
          = Some (VDict [ ("status", VStr "unhealthy"); ("required", VBool true) ]).
Proof.
  intros w.
  destruct (probes_never_raise epoch_seconds w)
    as (es & lm & [w1 Hes] & [w2 Hlm] & Hrefused & _ & _ & Htimeout & _ & _
        & [w3 Hready] & _).
  assert (Hes0 : es = false) by exact (Hrefused _ eq_refl).
  assert (Hlm0 : lm = false) by exact (Htimeout _ eq_refl).
  subst es lm.
  split; [rewrite Hes; reflexivity |]. split; [rewrite Hlm; reflexivity |].
  eexists. eexists. split; [exact Hready |]. split; reflexivity.
Defined.

End HealthProbesSpec.

(* ===================================================================== *)
(** * More on the circuit breaker                                         *)
(* ===================================================================== *)

Module CircuitBreakerMore.

Import circuit_breaker breaker_runs CircuitBreakerSpec.

Section Breaker.

Variable V : Type.
Variable format_1f : Z -> string.
Variable isoformat : Z -> string.

Local Abbreviation call := (call V format_1f).
Local Abbreviation admission := (admission format_1f).
Local Abbreviation exec := (exec V format_1f isoformat).
Local Abbreviation execs := (execs V format_1f isoformat).
Local Abbreviation get_state := (get_state isoformat).
Local Abbreviation call_eq := (call_eq V format_1f).
Local Abbreviation execs_invariant := (execs_invariant V format_1f isoformat).
Local Abbreviation execs_config := (execs_config V format_1f isoformat).
Local Abbreviation execs_cons := (execs_cons V format_1f isoformat).

(** *** [reset] *)

(** X1: [reset] after any run on a freshly built breaker gives back the
    instance exactly as [__init__] made it, without reading the clock or
    running anything; a second [reset] changes nothing more. *)
Theorem reset_restores_init (s : settings.CircuitBreakerSettings)
    (clk : nat -> Z) (ops : list (Op V)) :
  let w := execs ops (fresh s clk) in
  let w1 := snd (reset w) in
  fst (reset w) = Ok tt
  /\ self w1 = __init__ s
  /\ ticks w1 = ticks w
  /\ invocations w1 = invocations w
  /\ snd (reset w1) = w1.
Proof.
  intros w w1.
  destruct (execs_config ops (fresh s clk)) as [Hcfg _]. fold w in Hcfg.
  unfold config in Hcfg. cbn in Hcfg. injection Hcfg as Hft Htmo Hhm.
  subst w1. destruct w as [[ft tmo hm st fc lft hc] clk' tk inv].
  cbn in Hft, Htmo, Hhm. subst. repeat split.
Qed.

(** *** The accessors *)

(** X2: [get_state] and the three predicates leave the breaker as it is;
    exactly one predicate holds, and it is the one [get_state] names under
    the key [state]; the dictionary also gives the two counters, and
    [last_failure] is [None] exactly when no failure time is recorded. *)
Theorem accessors_agree (w : World) :
  exists (d : PyDict) (o c h : bool),
    get_state w = (Ok d, w)
    /\ is_open w = (Ok o, w)
    /\ is_closed w = (Ok c, w)
    /\ is_half_open w = (Ok h, w)
    /\ dict_get "state" d = Some (VStr (value (state (self w))))
    /\ (o = true <-> dict_get "state" d = Some (VStr "open"))
    /\ (c = true <-> dict_get "state" d = Some (VStr "closed"))
    /\ (h = true <-> dict_get "state" d = Some (VStr "half_open"))
    /\ ((o, c, h) = (true, false, false) \/ (o, c, h) = (false, true, false)
        \/ (o, c, h) = (false, false, true))
    /\ dict_get "failure_count" d = Some (VInt (failure_count (self w)))
    /\ dict_get "half_open_calls" d = Some (VInt (half_open_calls (self w)))
    /\ (dict_get "last_failure" d = Some VNone <-> last_failure_time (self w) = None).
Proof.
  eexists. eexists. eexists. eexists.
  do 4 (split; [reflexivity |]).
  destruct w as [[ft tmo hm st fc lft hc] clk tk inv].
  destruct st; cbn;
    (repeat split; intros; try discriminate; try reflexivity; auto);
    destruct lft; try discriminate; try reflexivity; auto.
Qed.

(** *** The cool-down test *)

(** X3: [_should_attempt_reset] never raises; with no failure on record it
    answers [True] without reading the clock; and once it answers [True]
    it answers [True] at every later reading of the clock, for the same
    instance. *)
Theorem should_attempt_reset_monotone (w w' : World) :
  self w' = self w ->
  clock w (ticks w) <= clock w' (ticks w') ->
  (exists b, fst (_should_attempt_reset w) = Ok b)
  /\ (last_failure_time (self w) = None -> _should_attempt_reset w = (Ok true, w))
  /\ (fst (_should_attempt_reset w) = Ok true ->
      fst (_should_attempt_reset w') = Ok true).
Proof.
  intros Hself Hclk.
  destruct w as [[ft tmo hm st fc lft hc] clk tk inv].
  destruct w' as [cb' clk' tk' inv']. cbn in Hself, Hclk. subst cb'.
  destruct lft as [t |]; py_run.
  - split; [eexists; reflexivity |]. split; [discriminate |].
    intros [= H]. apply Z.leb_le in H. leb_true. reflexivity.
  - split; [eexists; reflexivity |]. split; reflexivity.
Qed.

(** *** One call *)

(** X4: with a trial quota of at least 1, a call either runs the operation
    exactly once and hands its outcome to the caller, or runs nothing,
    leaves every attribute of the breaker as it was and raises a
    [CircuitBreakerError]. *)
Theorem call_runs_once_or_rejects (w : World) (func : Outcome V) :
  0 < half_open_max_calls (self w) ->
  let w' := snd (call func w) in
  (invocations w' = S (invocations w) /\ fst (call func w) = seen func)
  \/ (invocations w' = invocations w
      /\ self w' = self w
      /\ exists msg, fst (call func w) = Raised (CircuitBreakerError msg)).
Proof.
  intros Hmax w'. subst w'. rewrite call_eq.
  destruct (state (self w)) eqn:Hst.
  - rewrite admission_not_open by congruence. rewrite Hst. cbn [state_eqb andb].
    left. destruct func; split; reflexivity.
  - destruct (last_failure_time (self w)) as [t |] eqn:Hlft.
    + destruct (Z.lt_ge_cases (clock w (ticks w) - t) (timeout (self w) * us_per_s))
        as [Hel | Hel].
      * rewrite (admission_open_wait _ w t Hst Hlft Hel). right.
        split; [reflexivity |]. split; [reflexivity |]. eexists. reflexivity.
      * rewrite (admission_open_probe _ w t Hst Hlft Hel). cbv zeta. leb_false.
        left. destruct func; split; reflexivity.
    + rewrite (admission_open_no_failure _ w Hst Hlft). cbv zeta. leb_false.
      left. destruct func; split; reflexivity.
  - rewrite admission_not_open by congruence. rewrite Hst. cbn [state_eqb andb].
    destruct (half_open_max_calls (self w) <=? half_open_calls (self w)).
    + right. split; [reflexivity |]. split; [reflexivity |]. eexists. reflexivity.
    + left. destruct func; split; reflexivity.
Qed.

(** *** What every run keeps *)

Lemma exec_preserves_bookkeeping (op : Op V) (w : World) :
  bookkeeping (self w) -> bookkeeping (self (exec op w)).
Proof.
  unfold bookkeeping. open_world w.
  destruct op as [[v | e] | | | | |]; try exact (fun H => H);
    destruct st; try destruct lft as [t |]; py_run; split_tests; py_run;
    intros (Hfc & Hhc & Hst & Hpos);
    (repeat split; try lia; try discriminate; try congruence; auto);
    intros; apply Hst; discriminate.
Qed.

Lemma fresh_bookkeeping (s : settings.CircuitBreakerSettings) (clk : nat -> Z) :
  bookkeeping (self (fresh s clk)).
Proof.
  unfold bookkeeping. cbn. repeat split; try lia; congruence.
Qed.

(** X5: after every run of [call], [reset] and the accessors on a freshly
    built breaker, [failure_count] and [half_open_calls] are not negative,
    and a breaker that is OPEN or HALF_OPEN, or whose [failure_count] is
    positive, has a [last_failure_time]: the branches of [call] and
    [_should_attempt_reset] for a missing failure time are never taken on
    an OPEN breaker. *)
Theorem reachable_bookkeeping (s : settings.CircuitBreakerSettings)
    (clk : nat -> Z) (ops : list (Op V)) :
  let cb := self (execs ops (fresh s clk)) in
  0 <= failure_count cb
  /\ 0 <= half_open_calls cb
  /\ (state cb <> CLOSED -> exists t, last_failure_time cb = Some t)
  /\ (0 < failure_count cb -> exists t, last_failure_time cb = Some t).
Proof.
  intros cb.
  assert (H : bookkeeping cb).
  { apply (execs_invariant bookkeeping).
    - intros op w. apply exec_preserves_bookkeeping.
    - apply fresh_bookkeeping. }
  destruct H as (Hfc & Hhc & Hst & Hpos).
  split; [exact Hfc |]. split; [exact Hhc |].
  split; intros H; destruct (last_failure_time cb) as [t |].
  - exists t. reflexivity.
  - exfalso. apply (Hst H). reflexivity.
  - exists t. reflexivity.
  - exfalso. apply (Hpos H). reflexivity.
Qed.

Lemma call_returned (w : World) (func : Outcome V) (v : V) :
  0 <= failure_count (self w) ->
  fst (call func w) = Ok v ->
  func = Returns v
  /\ invocations (snd (call func w)) = S (invocations w)
  /\ ((state (self (snd (call func w))) = CLOSED
       /\ failure_count (self (snd (call func w))) = 0)
      \/ state (self (snd (call func w))) = HALF_OPEN).
Proof.
  open_world w.
  destruct func as [v' | e]; destruct st; try destruct lft as [t |];
    py_run; split_tests; py_run; intros Hfc Hres;
    try discriminate Hres; injection Hres as ->;
    (split; [reflexivity |]); (split; [reflexivity |]);
    try (left; split; [reflexivity | lia]); try (right; reflexivity).
Qed.

(** X6: in any run on a freshly built breaker, a call that returns a value
    has run the operation, which returned that value, and leaves the
    breaker CLOSED with [failure_count = 0] or HALF_OPEN, never OPEN. *)
Theorem returned_call_not_open (s : settings.CircuitBreakerSettings)
    (clk : nat -> Z) (ops : list (Op V)) (func : Outcome V) (v : V) :
  let w := execs ops (fresh s clk) in
  let w' := snd (call func w) in
  fst (call func w) = Ok v ->
  func = Returns v
  /\ invocations w' = S (invocations w)
  /\ ((state (self w') = CLOSED /\ failure_count (self w') = 0)
      \/ state (self w') = HALF_OPEN).
Proof.
  intros w w'. apply call_returned.
  apply (execs_invariant bookkeeping).
  - intros op w0. apply exec_preserves_bookkeeping.
  - apply fresh_bookkeeping.
Qed.

(** *** Runs of calls *)

(** X7: on a CLOSED breaker, as long as no failures in a row reach the
    threshold, any run of calls, successes and failures in any order, leaves
    the breaker CLOSED, and [failure_count] is the number of failures since
    the last success. *)
Theorem failure_count_is_streak (funcs : list (Outcome V)) :
  forall w : World,
    state (self w) = CLOSED ->
    0 <= failure_count (self w) ->
    streaks_below (failure_threshold (self w)) (failure_count (self w)) funcs = true ->
    state (self (execs (calls funcs) w)) = CLOSED
    /\ failure_count (self (execs (calls funcs) w))
       = streak (failure_count (self w)) funcs.
Proof.
  induction funcs as [| [v | e] funcs IH]; intros w Hst Hfc Hbelow.
  - split; [exact Hst | reflexivity].
  - cbn [calls map]. rewrite execs_cons.
    rewrite (exec_success_admitted V format_1f isoformat) by (left; exact Hst).
    cbn [streaks_below streak] in *.
    destruct w as [[ft tmo hm st fc lft hc] clk tk inv].
    cbn [self state failure_count failure_threshold] in *. subst st.
    unfold after_success. cbn [state failure_count].
    destruct (Z.ltb_spec 0 fc) as [Hpos | Hzero].
    + apply IH; cbn; trivial; lia.
    + assert (fc = 0) by lia. subst fc. apply IH; cbn; trivial; lia.
  - cbn [calls map]. rewrite execs_cons.
    rewrite (exec_failure_closed V format_1f isoformat) by exact Hst.
    cbn [streaks_below streak] in *. apply andb_prop in Hbelow as [Hlt Hbelow].
    apply Z.ltb_lt in Hlt.
    destruct w as [[ft tmo hm st fc lft hc] clk tk inv].
    cbn [self state failure_count failure_threshold] in *. subst st.
    unfold after_failure. cbn [state failure_count failure_threshold].
    leb_false. apply IH; cbn; trivial; lia.
Qed.

(** X8: calls that reach an OPEN breaker before the cool-down is over are
    all rejected and change nothing: the operation is never run, the
    counters and [last_failure_time] stay as they are, so rejected calls do
    not put off the end of the cool-down.  Each of them reads the clock
    twice. *)
Theorem rejections_keep_cooldown (funcs : list (Outcome V)) :
  forall (w : World) (t : Z),
    state (self w) = OPEN ->
    last_failure_time (self w) = Some t ->
    (forall i : nat, (i < List.length funcs)%nat ->
       clock w (ticks w + 2 * i) - t < timeout (self w) * us_per_s) ->
    execs (calls funcs) w
    = mkWorld (self w) (clock w) (ticks w + 2 * List.length funcs) (invocations w).
Proof.
  induction funcs as [| func funcs IH]; intros w t Hst Hlft Hearly.
  - destruct w as [cb clk tk inv]. cbn. rewrite Nat.add_0_r. reflexivity.
  - cbn [calls map]. rewrite execs_cons.
    assert (H0 : clock w (ticks w) - t < timeout (self w) * us_per_s).
    { specialize (Hearly 0%nat). rewrite Nat.add_0_r in Hearly.
      apply Hearly. cbn. lia. }
    change (exec (Call func) w) with (snd (call func w)).
    rewrite call_eq, (admission_open_wait _ w t Hst Hlft H0). cbn [snd].
    fold (calls funcs). rewrite (IH _ t); cbn [self clock ticks invocations].
    + f_equal. cbn [List.length]. lia.
    + exact Hst.
    + exact Hlft.
    + intros i Hi. specialize (Hearly (S i)).
      replace (S (S (ticks w)) + 2 * i)%nat with (ticks w + 2 * S i)%nat by lia.
      apply Hearly. cbn [List.length]. lia.
Qed.

End Breaker.

(** *** The statements at work on concrete breakers *)

Lemma should_attempt_reset_monotone_witness :
  fst (_should_attempt_reset (opened_at_0 60)) = Ok true
  /\ fst (_should_attempt_reset (opened_at_0 75)) = Ok true.
Proof.
  destruct (should_attempt_reset_monotone (opened_at_0 60) (opened_at_0 75) eq_refl)
    as (_ & _ & H).
  - vm_compute. discriminate.
  - split; [reflexivity | apply H; reflexivity].
Defined.

Lemma call_runs_once_or_rejects_witness :
  let w := opened_at_0 30 in
  let w' := snd (call nat tenths (Returns 7%nat) w) in
  (invocations w' = S (invocations w)
   /\ fst (call nat tenths (Returns 7%nat) w) = seen (Returns 7%nat))
  \/ (invocations w' = invocations w
      /\ self w' = self w
      /\ exists msg, fst (call nat tenths (Returns 7%nat) w)
                     = Raised (CircuitBreakerError msg)).
Proof.
  apply (call_runs_once_or_rejects nat tenths (opened_at_0 30) (Returns 7%nat)).
  reflexivity.
Defined.

Lemma returned_call_not_open_witness :
  let w := execs nat tenths tenths (failing (repeat service_unavailable 2))
                 (fresh settings.default (regular_clock 1)) in
  let w' := snd (call nat tenths (Returns 7%nat) w) in
  invocations w' = 3%nat
  /\ ((state (self w') = CLOSED /\ failure_count (self w') = 0)
      \/ state (self w') = HALF_OPEN).
Proof.
  exact (proj2 (returned_call_not_open nat tenths tenths settings.default
                  (regular_clock 1) (failing (repeat service_unavailable 2))
                  (Returns 7%nat) 7%nat eq_refl)).
Defined.

(** Failure, success and failure again, twice over: six failures in all,
    never more than two in a row, against a threshold of 5. *)
Lemma failure_count_is_streak_witness :
  let funcs := [Raises service_unavailable; Raises service_unavailable; Returns 1%nat;
                Raises service_unavailable; Raises service_unavailable; Returns 2%nat;
                Raises service_unavailable; Raises service_unavailable] in
  let w := execs nat tenths tenths (calls funcs) (fresh settings.default (regular_clock 1)) in
  state (self w) = CLOSED /\ failure_count (self w) = 2.
Proof.
  apply (failure_count_is_streak nat tenths tenths
           [Raises service_unavailable; Raises service_unavailable; Returns 1%nat;
            Raises service_unavailable; Raises service_unavailable; Returns 2%nat;
            Raises service_unavailable; Raises service_unavailable]
           (fresh settings.default (regular_clock 1)));
    [reflexivity | vm_compute; discriminate | reflexivity].
Defined.

(** Ten calls in the first twenty seconds of a 60 s cool-down. *)
Lemma rejections_keep_cooldown_witness :
  execs nat tenths tenths (calls (repeat (Returns 7%nat) 10)) (opened_at_0 0)
  = opened_at_0 20.
Proof.
  apply (rejections_keep_cooldown nat tenths tenths (repeat (Returns 7%nat) 10)
           (opened_at_0 0) 0 eq_refl eq_refl).
  intros i Hi. cbn [List.length repeat] in Hi.
  unfold opened_at_0, regular_clock, us_per_s. cbn [clock ticks self timeout]. lia.
Defined.

End CircuitBreakerMore.

(* ===================================================================== *)
(** * More on the health probes                                           *)
(* ===================================================================== *)

Module HealthProbesMore.

Import health_probes probe_runs HealthProbesSpec.

Section Probes.

Variable isoformat : Z -> string.

Local Abbreviation liveness := (liveness isoformat).
Local Abbreviation readiness := (readiness isoformat).
Local Abbreviation startup := (startup isoformat).
Local Abbreviation probes := (probes isoformat).
Local Abbreviation startup_latched := (startup_latched isoformat).
Local Abbreviation startup_unlatched := (startup_unlatched isoformat).

Lemma check_elasticsearch_eq (w : World) :
  _check_elasticsearch w
  = (Ok (reply_healthy (es_now w)),
     mkWorld (self w) (es_service w) (S (es_calls w)) (http_service w)
             (http_calls w) (utc_clock w) (utc_ticks w)).
Proof.
  open_hp w. hp_run. unfold reply_healthy.
  destruct (ess esn) as [e | [e | health]]; try reflexivity.
  destruct (dict_get "status" health); reflexivity.
Qed.

Lemma check_lmstudio_eq (w : World) :
  _check_lmstudio w
  = (Ok match http_now w with
        | Response code => code =? 200
        | GetRaises _ => false
        end,
     mkWorld (self w) (es_service w) (es_calls w) (http_service w)
             (S (http_calls w)) (utc_clock w) (utc_ticks w)).
Proof.
  open_hp w. hp_run.
  match goal with |- context [https ?u httpn] => destruct (https u httpn) as [e | code] end.
  - destruct (isinstance e TimeoutException_classes); reflexivity.
  - reflexivity.
Qed.

Lemma readiness_world (w : World) :
  snd (readiness w)
  = mkWorld (self w) (es_service w) (S (es_calls w)) (http_service w)
            (S (http_calls w)) (utc_clock w) (S (utc_ticks w)).
Proof.
  unfold health_probes.readiness, bind.
  rewrite check_elasticsearch_eq, check_lmstudio_eq. reflexivity.
Qed.

Lemma readiness_eq (w : World) :
  readiness w
  = (Ok [ ("status",
           status_of (reply_healthy (es_now w)
                      && match http_now w with
                         | Response code => code =? 200
                         | GetRaises _ => false
                         end));
          ("timestamp", VStr (isoformat (utc_clock w (utc_ticks w))));
          ("probe", VStr "readiness");
          ("checks",
           VDict [ ("elasticsearch", check_entry (reply_healthy (es_now w)));
                   ("lmstudio",
                    check_entry match http_now w with
                                | Response code => code =? 200
                                | GetRaises _ => false
                                end) ]) ],
     mkWorld (self w) (es_service w) (S (es_calls w)) (http_service w)
             (S (http_calls w)) (utc_clock w) (S (utc_ticks w))).
Proof.
  unfold health_probes.readiness, bind.
  rewrite check_elasticsearch_eq, check_lmstudio_eq.
  open_hp w. reflexivity.
Qed.

(** X9: how often each probe reaches the dependencies.  [liveness] reaches
    neither; [readiness] builds one search-engine client and sends one
    request to the LM endpoint, also when the search engine is already
    found unhealthy; [startup] never sends a request to the LM endpoint,
    and builds one search-engine client while the flag is unset and none
    once it is set.  [liveness] and [readiness] leave the flag alone. *)
Theorem probe_contacts (w : World) :
  (es_calls (snd (liveness w)) = es_calls w
   /\ http_calls (snd (liveness w)) = http_calls w
   /\ self (snd (liveness w)) = self w)
  /\ (es_calls (snd (readiness w)) = S (es_calls w)
      /\ http_calls (snd (readiness w)) = S (http_calls w)
      /\ self (snd (readiness w)) = self w)
  /\ (http_calls (snd (startup w)) = http_calls w
      /\ es_calls (snd (startup w))
         = if startup_complete (self w) then es_calls w else S (es_calls w)).
Proof.
  split; [repeat split |]. split.
  - rewrite readiness_world. repeat split.
  - destruct (startup_complete (self w)) eqn:Hdone.
    + rewrite (startup_latched w Hdone). split; reflexivity.
    + rewrite (startup_unlatched w (reply_healthy (es_now w)) Hdone)
        by (rewrite check_elasticsearch_eq; reflexivity).
      split; reflexivity.
Qed.

(** X10: [reset_startup] unsets the flag and touches nothing else, so the
    next [startup] runs the search-engine check again, and the flag then
    says whether that check passed. *)
Theorem reset_startup_reopens (w : World) :
  let w1 := snd (reset_startup w) in
  let w2 := snd (startup w1) in
  fst (reset_startup w) = Ok tt
  /\ startup_complete (self w1) = false
  /\ es_calls w1 = es_calls w
  /\ es_now w1 = es_now w
  /\ es_calls w2 = S (es_calls w)
  /\ startup_complete (self w2) = reply_healthy (es_now w).
Proof.
  intros w1 w2. subst w2.
  rewrite (startup_unlatched w1 (reply_healthy (es_now w1)) eq_refl)
    by (rewrite check_elasticsearch_eq; reflexivity).
  subst w1. open_hp w. repeat split.
Qed.

(** X11: the search-engine check answers [True] exactly when a client
    could be built, the health request returned a dictionary, and its
    [status] is the string green or the string yellow; a missing key and a
    status that is not a string count as unhealthy. *)
Theorem check_elasticsearch_healthy_iff (w : World) :
  fst (_check_elasticsearch w) = Ok true
  <-> exists health status,
        es_now w = Connected (HealthReturns health)
        /\ dict_get "status" health = Some (VStr status)
        /\ (status = "green" \/ status = "yellow").
Proof.
  rewrite check_elasticsearch_eq. cbn [fst]. unfold reply_healthy.
  split.
  - destruct (es_now w) as [e | [e | health]]; try discriminate.
    destruct (dict_get "status" health) as [[| b | z | status | d] |] eqn:Hd;
      try discriminate.
    cbn [in_strings existsb]. intros [= H].
    exists health, status. split; [reflexivity |]. split; [exact Hd |].
    destruct (String.eqb_spec status "green") as [-> | _]; [left; reflexivity |].
    destruct (String.eqb_spec status "yellow") as [-> | _]; [right; reflexivity |].
    discriminate H.
  - intros (health & status & -> & Hstatus & [-> | ->]); rewrite Hstatus;
      reflexivity.
Qed.

(** X12: the LM check answers [True] exactly when the request to the
    models URL comes back with status code 200; any other code, a time-out
    and any other exception all give [False]. *)
Theorem check_lmstudio_healthy_iff (w : World) :
  fst (_check_lmstudio w) = Ok true <-> http_now w = Response 200.
Proof.
  rewrite check_lmstudio_eq. cbn [fst].
  destruct (http_now w) as [e | code].
  - split; discriminate.
  - split.
    + intros [= H]. apply Z.eqb_eq in H. subst code. reflexivity.
    + intros [= ->]. reflexivity.
Qed.

(** *** Repeated [startup] calls *)

Lemma probes_cons (p : Probe) (ps : list Probe) (w : World) :
  probes (p :: ps) w = probes ps (snd (probe isoformat p w)).
Proof. reflexivity. Qed.

Lemma latched_startups (m : nat) :
  forall w, startup_complete (self w) = true ->
            es_calls (probes (repeat Startup m) w) = es_calls w
            /\ startup_complete (self (probes (repeat Startup m) w)) = true.
Proof.
  induction m as [| m IH]; intros w Hdone.
  - split; [reflexivity | exact Hdone].
  - cbn [repeat]. rewrite probes_cons. cbn [probe].
    rewrite (startup_latched w Hdone). cbn [snd].
    apply (IH (mkWorld (self w) (es_service w) (es_calls w) (http_service w)
                       (http_calls w) (utc_clock w) (S (utc_ticks w)))).
    exact Hdone.
Qed.

(** X13: [startup] keeps trying until the search engine is healthy, and
    then stops asking.  If the flag is unset and the search engine fails
    the next [k] checks and passes the one after, then [m] calls of
    [startup] build [min m (k+1)] clients, and the flag is set exactly when
    [m > k]. *)
Theorem startup_retries_until_healthy (m : nat) :
  forall (k : nat) (w : World),
    startup_complete (self w) = false ->
    (forall i : nat, (i < k)%nat ->
       reply_healthy (es_service w (es_calls w + i)) = false) ->
    reply_healthy (es_service w (es_calls w + k)) = true ->
    let w' := probes (repeat Startup m) w in
    es_calls w' = (es_calls w + Nat.min m (S k))%nat
    /\ startup_complete (self w') = (k <? m)%nat.
Proof.
  induction m as [| m IH]; intros k w Hdone Hbad Hgood w'; subst w'.
  - cbn. rewrite Nat.add_0_r. split; [reflexivity | exact Hdone].
  - cbn [repeat]. rewrite probes_cons. cbn [probe].
    rewrite (startup_unlatched w (reply_healthy (es_now w)) Hdone)
      by (rewrite check_elasticsearch_eq; reflexivity).
    cbn [snd]. unfold es_now. destruct k as [| k].
    + rewrite Nat.add_0_r in Hgood. rewrite Hgood.
      match goal with
      | |- context [probes _ ?w1] =>
          destruct (latched_startups m w1 eq_refl) as [Hcalls Hflag];
          rewrite Hcalls, Hflag
      end.
      cbn [es_calls]. split; [lia | reflexivity].
    + assert (Hb0 : reply_healthy (es_service w (es_calls w)) = false).
      { rewrite <- (Nat.add_0_r (es_calls w)). apply Hbad. lia. }
      rewrite Hb0.
      match goal with
      | |- context [probes _ ?w1] =>
          destruct (IH k w1 eq_refl) as [Hcalls Hflag]
      end.
      * intros i Hi. cbn [es_service es_calls].
        replace (S (es_calls w) + i)%nat with (es_calls w + S i)%nat by lia.
        apply Hbad. lia.
      * cbn [es_service es_calls].
        replace (S (es_calls w) + k)%nat with (es_calls w + S k)%nat by lia.
        exact Hgood.
      * rewrite Hcalls, Hflag. cbn [es_calls]. split; [lia | reflexivity].
Qed.

End Probes.

(** *** The statements at work on concrete services *)

(** Five [startup] calls against a search engine that refuses the first
    connection: two clients are built, and the flag is set. *)
Lemma startup_retries_until_healthy_witness :
  let w' := probes epoch_seconds (repeat Startup 5) late_start in
  es_calls w' = 2%nat /\ startup_complete (self w') = true.
Proof.
  apply (startup_retries_until_healthy epoch_seconds 5 1 late_start eq_refl).
  - intros i Hi. assert (i = 0%nat) by lia. subst i. reflexivity.
  - reflexivity.
Defined.

End HealthProbesMore.

(* ===================================================================== *)
(** * Properties of the health endpoints                                  *)
(* ===================================================================== *)

Module HealthApiSpec.

Import health_probes probe_runs HealthProbesSpec HealthProbesMore.

Section Endpoints.

Variable isoformat : Z -> string.

Local Abbreviation check_elasticsearch_eq := (check_elasticsearch_eq).
Local Abbreviation startup_latched := (startup_latched isoformat).
Local Abbreviation startup_unlatched := (startup_unlatched isoformat).

(** X14: the readiness endpoint never raises; it returns the dictionary of
    the probe, and it sets the status code of the response to 503 exactly
    when the search engine's answer is not healthy or the LM endpoint does
    not answer 200; when both are healthy it leaves the status code as it
    found it. *)
Theorem readiness_endpoint_status (w : World) (status_code : option Z) :
  exists (d : PyDict) (w' : World),
    let both := reply_healthy (es_now w)
                && match http_now w with
                   | Response code => code =? 200
                   | GetRaises _ => false
                   end in
    api_health.readiness isoformat status_code w
    = (Ok (d, if both then status_code else Some 503), w')
    /\ health_probes.readiness isoformat w = (Ok d, w')
    /\ dict_get "status" d = Some (status_of both).
Proof.
  cbv zeta. unfold api_health.readiness, bind.
  rewrite (readiness_eq isoformat w).
  set (es := reply_healthy (es_now w)).
  set (lm := match http_now w with
             | Response code => code =? 200
             | GetRaises _ => false
             end).
  eexists. eexists.
  split; [| split; reflexivity].
  destruct es, lm; reflexivity.
Qed.

(** X15: the startup endpoint never raises; it sets the status code of the
    response to 503 exactly when the flag is unset and the search engine's
    answer is not healthy, and otherwise leaves the status code as it found
    it: once a check has passed, it never answers 503 again. *)
Theorem startup_endpoint_status (w : World) (status_code : option Z) :
  exists (d : PyDict) (w' : World),
    let ok := startup_complete (self w) || reply_healthy (es_now w) in
    api_health.startup isoformat status_code w
    = (Ok (d, if ok then status_code else Some 503), w')
    /\ health_probes.startup isoformat w = (Ok d, w')
    /\ startup_complete (self w') = ok.
Proof.
  unfold api_health.startup, bind.
  destruct (startup_complete (self w)) eqn:Hdone.
  - rewrite (startup_latched w Hdone). eexists. eexists.
    split; [reflexivity |]. split; [reflexivity | exact Hdone].
  - rewrite (startup_unlatched w (reply_healthy (es_now w)) Hdone)
      by (rewrite check_elasticsearch_eq; reflexivity).
    destruct (reply_healthy (es_now w)); eexists; eexists;
      (split; [reflexivity |]); split; reflexivity.
Qed.

End Endpoints.

End HealthApiSpec.

(* ===================================================================== *)
(** * Properties of the LLM interface                                     *)
(* ===================================================================== *)

Module LLMInterfaceSpec.

Import circuit_breaker litellm_interface CircuitBreakerSpec.

Section Interface.

Variable format_1f : Z -> string.
Variable isoformat : Z -> string.
Variable format_dict : PyDict -> string.

Local Abbreviation call := (call (option string) format_1f).
Local Abbreviation call_eq := (call_eq (option string) format_1f).
Local Abbreviation check_messages := (check_messages format_dict).
Local Abbreviation check_arguments := (check_arguments format_dict).
Local Abbreviation chat_completion := (chat_completion format_1f isoformat format_dict).
Local Abbreviation fallback_message := (fallback_message format_dict).

(** *** The checks of the arguments *)

Lemma check_messages_raises (messages : list PyVal) :
  forall (i : nat) (e : PyExc),
    check_messages i messages = Raised e -> exc_class e = "ValueError".
Proof.
  induction messages as [| msg rest IH]; intros i e; cbn [litellm_interface.check_messages].
  - discriminate.
  - destruct msg as [| b | z | s0 | d]; try (intros [= <-]; reflexivity).
    destruct (dict_get "role" d) as [role |]; [| intros [= <-]; reflexivity].
    destruct (dict_get "content" d) as [content |]; [| intros [= <-]; reflexivity].
    destruct (negb (in_strings role ["system"; "user"; "assistant"])).
    + intros [= <-]. reflexivity.
    + apply IH.
Qed.

Lemma check_arguments_raises (llm : LLMInterface) (messages : list PyVal)
    (temperature : option Number) (max_tokens : option Z) (e : PyExc) :
  check_arguments llm messages temperature max_tokens = Raised e ->
  exc_class e = "ValueError".
Proof.
  unfold litellm_interface.check_arguments.
  destruct messages as [| msg rest]; [intros [= <-]; reflexivity |].
  destruct (check_messages 0 (msg :: rest)) as [[] | e'] eqn:Hmsgs.
  - destruct (negb (in_range _)); [intros [= <-]; reflexivity |].
    destruct (_ <=? 0); [intros [= <-]; reflexivity | discriminate].
  - intros [= <-]. exact (check_messages_raises _ _ _ Hmsgs).
Qed.

Lemma check_messages_well_formed (messages : list PyVal) :
  forall i : nat,
    check_messages i messages = Ok tt <-> forallb well_formed messages = true.
Proof.
  induction messages as [| msg rest IH]; intros i;
    cbn [litellm_interface.check_messages forallb].
  - split; reflexivity.
  - destruct msg as [| b | z | s0 | d]; cbn [well_formed andb];
      try (split; discriminate).
    destruct (dict_get "role" d) as [role |]; [| split; discriminate].
    destruct (dict_get "content" d) as [content |];
      [| destruct role; split; discriminate].
    destruct role as [| b | z | role | d']; cbn [in_strings existsb negb];
      try (split; discriminate).
    rewrite orb_false_r, <- orb_assoc.
    destruct (String.eqb role "system" || (String.eqb role "user"
                                           || String.eqb role "assistant"));
      cbn [negb andb]; [apply IH | split; discriminate].
Qed.

Lemma in_range_moderate (t : Number) : in_range t = true <-> moderate t.
Proof.
  unfold moderate. destruct t as [q | | negative]; cbn [in_range].
  - rewrite andb_true_iff, !Qle_bool_iff. split.
    + intros [H0 H2]. exists q. repeat split; assumption.
    + intros (q' & [= <-] & H0 & H2). split; assumption.
  - split; [discriminate | intros (q & H & _); discriminate H].
  - split; [discriminate | intros (q & H & _); discriminate H].
Qed.

Lemma value_error_form (e : PyExc) :
  exc_class e = "ValueError" -> e = mkExc "ValueError" (exc_msg e).
Proof. destruct e as [cls msg]. cbn. intros ->. reflexivity. Qed.

(** X16: [chat_completion] turns the call down for its arguments exactly
    when there are no messages, or some message is not a dictionary, lacks
    [role] or [content] or has a role other than system, user and
    assistant, or the temperature (the default when none is given) is not
    a number between 0 and 2, or the token limit (the default when none is
    given) is below 1.  It then raises a [ValueError] and does nothing
    else: the breaker is not consulted, its counters stay as they are, the
    clock is not read and the LLM is not called.  With arguments that are
    in order it never raises a [ValueError]. *)
Theorem chat_completion_bad_arguments (llm : LLMInterface) (messages : list PyVal)
    (temperature : option Number) (max_tokens : option Z)
    (completion : Outcome (option string)) (w : World) :
  let t := match temperature with
           | Some t => t
           | None => default_temperature llm
           end in
  let n := match max_tokens with
           | Some n => n
           | None => default_max_tokens llm
           end in
  let result := chat_completion llm messages temperature max_tokens completion w in
  (messages = [] ->
     result = (Raised (mkExc "ValueError" "messages list cannot be empty"), w))
  /\ (messages <> [] -> forallb well_formed messages = false ->
      exists text, result = (Raised (mkExc "ValueError" text), w))
  /\ (messages <> [] -> forallb well_formed messages = true -> ~ moderate t ->
      result = (Raised (mkExc "ValueError" "temperature must be between 0.0 and 2.0"), w))
  /\ (messages <> [] -> forallb well_formed messages = true -> moderate t -> n <= 0 ->
      result = (Raised (mkExc "ValueError" "max_tokens must be a positive integer"), w))
  /\ (messages <> [] -> forallb well_formed messages = true -> moderate t -> 0 < n ->
      forall e, fst result = Raised e -> exc_class e = "RuntimeError").
Proof.
  intros t n result. subst result.
  unfold litellm_interface.chat_completion, litellm_interface.check_arguments.
  fold t. fold n.
  split; [intros ->; reflexivity |].
  destruct messages as [| msg rest].
  { repeat split; intros Hne; exfalso; apply Hne; reflexivity. }
  pose proof (check_messages_well_formed (msg :: rest) 0) as Hmsgs.
  pose proof (in_range_moderate t) as Htemp.
  split.
  { intros _ Hbad.
    destruct (check_messages 0 (msg :: rest)) as [[] | e] eqn:Hcheck.
    - rewrite (proj1 Hmsgs eq_refl) in Hbad. discriminate Hbad.
    - exists (exc_msg e).
      rewrite <- (value_error_form e (check_messages_raises _ _ _ Hcheck)).
      reflexivity. }
  split.
  { intros _ Hgood Hnot. rewrite (proj2 Hmsgs Hgood).
    destruct (in_range t); [exfalso; apply Hnot, Htemp; reflexivity |].
    reflexivity. }
  split.
  { intros _ Hgood Hmod Hn. rewrite (proj2 Hmsgs Hgood), (proj2 Htemp Hmod).
    cbn [negb]. leb_true. reflexivity. }
  intros _ Hgood Hmod Hn. rewrite (proj2 Hmsgs Hgood), (proj2 Htemp Hmod).
  cbn [negb]. leb_false.
  unfold try_except, bind.
  destruct (call completion w) as [[c | e0] w'].
  - destruct c as [s0 |]; cbn; [discriminate | intros e [= <-]; reflexivity].
  - destruct (isinstance e0 ["CircuitBreakerError"]); cbn; intros e [= <-];
      reflexivity.
Qed.

(** *** What reaches the caller *)

Lemma call_ok_returns (func : Outcome (option string)) (w : World) (c : option string) :
  fst (call func w) = Ok c -> func = Returns c.
Proof.
  rewrite call_eq.
  destruct (admission format_1f w) as [[[] | e] w']; [| discriminate].
  destruct func as [c' | e]; cbn [fst]; [intros [= ->]; reflexivity | discriminate].
Qed.

(** X17: [chat_completion] raises nothing but [ValueError] and
    [RuntimeError]: a [CircuitBreakerError] never reaches its caller,
    whether the breaker rejected the call or the LLM call itself raised
    one.  When it returns, it returns a string, the content the LLM call
    returned. *)
Theorem chat_completion_outcomes (llm : LLMInterface) (messages : list PyVal)
    (temperature : option Number) (max_tokens : option Z)
    (completion : Outcome (option string)) (w : World) :
  match fst (chat_completion llm messages temperature max_tokens completion w) with
  | Ok content => exists s, content = Some s /\ completion = Returns (Some s)
  | Raised e => exc_class e = "ValueError" \/ exc_class e = "RuntimeError"
  end.
Proof.
  unfold litellm_interface.chat_completion.
  destruct (check_arguments llm messages temperature max_tokens) as [[] | e] eqn:Hcheck.
  - unfold try_except, bind.
    destruct (call completion w) as [[c | e] w'] eqn:Hcall.
    + destruct c as [s0 |]; cbn.
      * exists s0. split; [reflexivity |].
        apply (call_ok_returns completion w). rewrite Hcall. reflexivity.
      * right. reflexivity.
    + destruct (isinstance e ["CircuitBreakerError"]); cbn; right; reflexivity.
  - cbn. left. exact (check_arguments_raises _ _ _ _ _ Hcheck).
Qed.

(** *** The breaker behind the call *)

(** X18: with good arguments and the breaker OPEN before the end of the
    cool-down, [chat_completion] raises a [RuntimeError] whose message
    reads "... Current state: open, failures: N. Please try again in a
    moment.", with N the breaker's failure count; the LLM is not called
    and the breaker stays as it is. *)
Theorem chat_completion_open_fallback (llm : LLMInterface) (messages : list PyVal)
    (temperature : option Number) (max_tokens : option Z)
    (completion : Outcome (option string)) (w : World) (t : Z) :
  check_arguments llm messages temperature max_tokens = Ok tt ->
  state (self w) = OPEN ->
  last_failure_time (self w) = Some t ->
  clock w (ticks w) - t < circuit_breaker.timeout (self w) * us_per_s ->
  chat_completion llm messages temperature max_tokens completion w
  = (Raised (mkExc "RuntimeError"
               ("The AI service is temporarily unavailable due to repeated failures. The service will attempt to recover automatically. Current state: open, failures: "
                ++ str_of_int (failure_count (self w))
                ++ ". Please try again in a moment.")),
     mkWorld (self w) (clock w) (S (S (ticks w))) (invocations w)).
Proof.
  intros Hcheck Hst Hlft Hel.
  unfold litellm_interface.chat_completion. rewrite Hcheck.
  unfold try_except, bind.
  rewrite call_eq, (admission_open_wait _ w t Hst Hlft Hel).
  destruct w as [[ft tmo hm st fc lft hc] clk tk inv]. cbn in Hst. subst st.
  reflexivity.
Qed.

(** X19: with good arguments and a breaker that admits the call, an LLM
    call that raises an exception other than a [CircuitBreakerError] is
    counted as a failure by the breaker and reaches the caller as a
    [RuntimeError] whose message ends with the text of that exception. *)
Theorem chat_completion_llm_failure (llm : LLMInterface) (messages : list PyVal)
    (temperature : option Number) (max_tokens : option Z)
    (e : PyExc) (w : World) :
  check_arguments llm messages temperature max_tokens = Ok tt ->
  state (self w) = CLOSED
  \/ (state (self w) = HALF_OPEN
      /\ half_open_calls (self w) < half_open_max_calls (self w)) ->
  isinstance e ["CircuitBreakerError"] = false ->
  chat_completion llm messages temperature max_tokens (Raises e) w
  = (Raised (RuntimeError ("Failed to generate completion: " ++ exc_msg e)),
     mkWorld (after_failure (clock w (ticks w)) (self w))
             (clock w) (S (ticks w)) (S (invocations w))).
Proof.
  intros Hcheck Hadm Hother.
  unfold litellm_interface.chat_completion. rewrite Hcheck.
  unfold try_except, bind.
  rewrite call_eq, admission_not_open
    by (destruct Hadm as [H | [H _]]; rewrite H; discriminate).
  destruct Hadm as [-> | [-> Hq]]; cbn [state_eqb andb]; [| leb_false];
    rewrite Hother; reflexivity.
Qed.

(** X20: with good arguments and a breaker that admits the call, an LLM
    call that returns is counted as a success by the breaker whether or
    not it has content; with content the caller gets that string, without
    content (a [None]) the caller gets a [RuntimeError]. *)
Theorem chat_completion_content (llm : LLMInterface) (messages : list PyVal)
    (temperature : option Number) (max_tokens : option Z)
    (content : string) (w : World) :
  check_arguments llm messages temperature max_tokens = Ok tt ->
  state (self w) = CLOSED
  \/ (state (self w) = HALF_OPEN
      /\ half_open_calls (self w) < half_open_max_calls (self w)) ->
  let w' := mkWorld (after_success (self w)) (clock w) (ticks w)
                    (S (invocations w)) in
  chat_completion llm messages temperature max_tokens (Returns (Some content)) w
  = (Ok (Some content), w')
  /\ chat_completion llm messages temperature max_tokens (Returns None) w
     = (Raised (RuntimeError
                  "Failed to generate completion: object of type 'NoneType' has no len()"),
        w').
Proof.
  intros Hcheck Hadm w'. subst w'.
  unfold litellm_interface.chat_completion. rewrite Hcheck.
  unfold try_except, bind.
  rewrite !call_eq, admission_not_open
    by (destruct Hadm as [H | [H _]]; rewrite H; discriminate).
  destruct Hadm as [-> | [-> Hq]]; cbn [state_eqb andb]; [| leb_false];
    split; reflexivity.
Qed.

(** *** The defaults *)

(** X21: an interface built by [__init__], from [settings.llm] when its
    numeric fields passed their validators and from the LMStudio fallback
    otherwise, has defaults that pass the checks of [chat_completion]: a
    call that gives well-formed messages and no temperature or token limit
    of its own is never turned down for its arguments. *)
Theorem defaults_pass_checks (llm : option LLMSettings) (lmstudio : LMStudioSettings)
    (messages : list PyVal) :
  (forall s, llm = Some s -> llm_validated s) ->
  messages <> [] ->
  check_messages 0 messages = Ok tt ->
  check_arguments (__init__ llm lmstudio) messages None None = Ok tt.
Proof.
  intros Hvalid Hne Hmsgs. unfold litellm_interface.check_arguments.
  destruct messages as [| msg rest]; [congruence |]. rewrite Hmsgs.
  destruct llm as [s |]; cbn [__init__ default_temperature default_max_tokens].
  - destruct (Hvalid s eq_refl) as (_ & Htemp & Htok).
    unfold validate_temperature in Htemp. unfold validate_max_tokens in Htok.
    destruct (negb (in_range (s_temperature s))); [discriminate Htemp |].
    destruct (s_max_tokens s <=? 0); [discriminate Htok | reflexivity].
  - reflexivity.
Qed.

End Interface.

(** *** The statements at work *)

Lemma chat_completion_bad_arguments_witness :
  exists text,
    chat_completion tenths tenths no_format (__init__ None local_lmstudio)
      [ VDict [ ("role", VStr "robot"); ("content", VStr "Hello!") ] ] None None
      (Returns (Some "Hi")) (fresh settings.default (regular_clock 1))
    = (Raised (mkExc "ValueError" text), fresh settings.default (regular_clock 1)).
Proof.
  apply (proj1 (proj2 (chat_completion_bad_arguments tenths tenths no_format
                         (__init__ None local_lmstudio)
                         [ VDict [ ("role", VStr "robot"); ("content", VStr "Hello!") ] ]
                         None None (Returns (Some "Hi"))
                         (fresh settings.default (regular_clock 1))))).
  - discriminate.
  - reflexivity.
Defined.

Lemma chat_completion_open_fallback_witness :
  fst (chat_completion tenths tenths no_format (__init__ None local_lmstudio)
         hello None None (Returns (Some "Hi")) (opened_at_0 30))
  = Raised (RuntimeError
              ("The AI service is temporarily unavailable due to repeated failures. "
               ++ "The service will attempt to recover automatically. "
               ++ "Current state: open, failures: 5. "
               ++ "Please try again in a moment.")).
Proof.
  rewrite (chat_completion_open_fallback tenths tenths no_format
             (__init__ None local_lmstudio) hello None None (Returns (Some "Hi"))
             (opened_at_0 30) 0 eq_refl eq_refl eq_refl eq_refl).
  reflexivity.
Defined.

Lemma chat_completion_llm_failure_witness :
  chat_completion tenths tenths no_format (__init__ None local_lmstudio)
    hello None None (Raises service_unavailable)
    (fresh settings.default (regular_clock 1))
  = (Raised (RuntimeError "Failed to generate completion: Service unavailable"),
     mkWorld (mkCB 5 60 3 CLOSED 1 (Some 0) 0) (regular_clock 1) 1%nat 1%nat).
Proof.
  exact (chat_completion_llm_failure tenths tenths no_format
           (__init__ None local_lmstudio) hello None None service_unavailable
           (fresh settings.default (regular_clock 1))
           eq_refl (or_introl eq_refl) eq_refl).
Defined.

Lemma chat_completion_content_witness :
  fst (chat_completion tenths tenths no_format (__init__ None local_lmstudio)
         hello None None (Returns (Some "Hi"))
         (fresh settings.default (regular_clock 1)))
  = Ok (Some "Hi")
  /\ invocations
       (snd (chat_completion tenths tenths no_format (__init__ None local_lmstudio)
               hello None None (Returns None)
               (fresh settings.default (regular_clock 1)))) = 1%nat.
Proof.
  destruct (chat_completion_content tenths tenths no_format
              (__init__ None local_lmstudio) hello None None "Hi"
              (fresh settings.default (regular_clock 1))
              eq_refl (or_introl eq_refl)) as [Hsome Hnone].
  rewrite Hsome, Hnone. split; reflexivity.
Defined.

Lemma defaults_pass_checks_witness :
  check_arguments no_format (__init__ None local_lmstudio) hello None None = Ok tt.
Proof.
  apply (defaults_pass_checks no_format None local_lmstudio hello).
  - intros s Hs. discriminate Hs.
  - discriminate.
  - reflexivity.
Defined.

End LLMInterfaceSpec.

(* ===================================================================== *)
(** * Properties of the URL validator                                     *)
(* ===================================================================== *)

Module SettingsUrlSpec.

Import settings_url.

Lemma rstrip_slash_spec (s : string) :
  ends_with_slash (rstrip_slash s) = false
  /\ exists n, s = rstrip_slash s ++ slashes n.
Proof.
  induction s as [| c rest [IHend [n IHn]]]; cbn [rstrip_slash].
  - split; [reflexivity | exists 0%nat; reflexivity].
  - destruct (rstrip_slash rest) as [| c' rest'] eqn:Hr.
    + destruct (Ascii.eqb_spec c "/"%char) as [-> | Hc].
      * split; [reflexivity |]. exists (S n). cbn in *. rewrite IHn at 1.
        reflexivity.
      * split.
        -- cbn. apply Ascii.eqb_neq. exact Hc.
        -- exists n. cbn in *. rewrite IHn at 1. reflexivity.
    + split.
      * exact IHend.
      * exists n. cbn in *. rewrite IHn at 1. reflexivity.
Qed.

Lemma rstrip_slash_fixed (s : string) :
  ends_with_slash s = false -> rstrip_slash s = s.
Proof.
  induction s as [| c rest IH]; [reflexivity |].
  cbn [ends_with_slash rstrip_slash]. destruct rest as [| c' rest'].
  - intros Hc. cbn. rewrite Hc. reflexivity.
  - intros Hend. rewrite (IH Hend). reflexivity.
Qed.

(** X22: [validate_url] turns down exactly the values that start with
    neither http:// nor https://, with a [ValueError]; what it accepts it
    returns without the slashes at its end, and with nothing else changed:
    the result never ends with a slash, the value is the result followed
    by slashes only, and a value without a slash at its end comes back as
    it is. *)
Theorem validate_url_strips (v : string) :
  match validate_url v with
  | Ok url =>
      (String.prefix "http://" v = true \/ String.prefix "https://" v = true)
      /\ ends_with_slash url = false
      /\ (exists n, v = url ++ slashes n)
      /\ (ends_with_slash v = false -> url = v)
  | Raised e =>
      String.prefix "http://" v = false
      /\ String.prefix "https://" v = false
      /\ exc_class e = "ValueError"
  end.
Proof.
  unfold validate_url.
  destruct (String.prefix "http://" v) eqn:Hhttp;
    destruct (String.prefix "https://" v) eqn:Hhttps; cbn [orb negb];
    try (destruct (rstrip_slash_spec v) as [Hend Hn];
         split; [auto |]; split; [exact Hend |]; split; [exact Hn |];
         intros Hv; apply rstrip_slash_fixed, Hv).
  repeat split.
Qed.

End SettingsUrlSpec.
